(** * Departure board: rendering and animation engine

    A shallow embedding of [main_desktop.py]: the bitmap text cache, the
    blit primitives, the scrolling "calling at" animation, the row layout
    and the data refresh.  Python integers are modelled as [Z], strings as
    [string], dictionaries with string keys as [gmap string _]. *)

From Stdlib Require Import ZArith Lia Bool Ascii String.
From stdpp Require Import base gmap strings list.

Local Open Scope Z_scope.
Local Set Warnings "-clear-no-such-hyp".

(** ** Scroll animation state

    The four counters that [DepartureBoard.__init__] creates and that
    [_draw_scrolling_text] mutates once per frame. *)

Record ScrollState := mkScroll {
  pixels_left : Z;
  pixels_up : Z;
  has_elevated : bool;
  pause_count : Z
}.

(** The values assigned in [__init__] and again in [_refresh_data]. *)
Definition scroll_init : ScrollState :=
  {| pixels_left := 1; pixels_up := 0; has_elevated := false; pause_count := 0 |}.

(** The state update of [_draw_scrolling_text] for a bitmap of width [w]
    and height [h] (lines 265-285, the drawing left aside). *)
Definition scroll_advance (w h : Z) (s : ScrollState) : ScrollState :=
  if has_elevated s then
    if (w <? - pixels_left s) && (pause_count s <? 8) then
      {| pixels_left := 0;
         pixels_up := pixels_up s;
         has_elevated := false;
         pause_count := pause_count s + 1 |}
    else
      {| pixels_left := pixels_left s - 1;
         pixels_up := pixels_up s;
         has_elevated := true;
         pause_count := 0 |}
  else
    if pixels_up s =? h then
      let pc := pause_count s + 1 in
      if 100 <? pc then
        {| pixels_left := pixels_left s;
           pixels_up := 0;
           has_elevated := true;
           pause_count := pc |}
      else
        {| pixels_left := pixels_left s;
           pixels_up := pixels_up s;
           has_elevated := false;
           pause_count := pc |}
    else
      {| pixels_left := pixels_left s;
         pixels_up := pixels_up s + 1;
         has_elevated := false;
         pause_count := pause_count s |}.

(** [n] consecutive frames with the same text. *)
Fixpoint scroll_frames (w h : Z) (n : nat) (s : ScrollState) : ScrollState :=
  match n with
  | O => s
  | S n' => scroll_frames w h n' (scroll_advance w h s)
  end.

(** The animator is back at the start of a reveal with nothing counted. *)
Definition fresh_reveal (s : ScrollState) : Prop :=
  has_elevated s = false /\ pause_count s = 0 /\ pixels_up s = 0.

(** The state in which every reveal after the first one starts. *)
Definition scroll_restart : ScrollState :=
  {| pixels_left := 0; pixels_up := 0; has_elevated := false; pause_count := 1 |}.

(** The bounds of the animator. *)
Definition scroll_bounded (h : Z) (s : ScrollState) : Prop :=
  0 <= pixels_up s <= h /\ pixels_left s <= 1.

(** ** Python values and strings *)

(** A dictionary value as the data source delivers it: a string or [None]. *)
Inductive PyValue :=
| PyStr (s : string)
| PyNone.

(** [a == b] on such values. *)
Definition py_eqb (a b : PyValue) : bool :=
  match a, b with
  | PyStr x, PyStr y => String.eqb x y
  | PyNone, PyNone => true
  | _, _ => false
  end.

(** [isinstance(v, str)]. *)
Definition py_is_str (v : PyValue) : bool :=
  match v with PyStr _ => true | PyNone => false end.

(** [f"{v}"]. *)
Definition py_format (v : PyValue) : string :=
  match v with PyStr s => s | PyNone => "None" end.

(** [str.lower] on one character.  Strings are byte strings here; only the
    letters A-Z have a lower-case form that can take part in a comparison
    with an ASCII literal, and no character outside ASCII lowers to an
    ASCII letter of ["bus"]. *)
Definition lower_ascii (c : ascii) : ascii :=
  let n := nat_of_ascii c in
  if ((65 <=? n) && (n <=? 90))%nat then ascii_of_nat (n + 32) else c.

Fixpoint lower (s : string) : string :=
  match s with
  | EmptyString => EmptyString
  | String c s' => String (lower_ascii c) (lower s')
  end.

(** [s.split(sep)] for a one-character separator. *)
Fixpoint split (sep : ascii) (s : string) : list string :=
  match s with
  | EmptyString => [EmptyString]
  | String c s' =>
      if Ascii.eqb c sep then EmptyString :: split sep s'
      else match split sep s' with
           | x :: r => String c x :: r
           | [] => [String c EmptyString]
           end
  end.

(** Truth value of a string: non-empty. *)
Definition truthy (s : string) : bool :=
  match s with EmptyString => false | String _ _ => true end.

(** [range(n)]. *)
Definition range (n : Z) : list Z := Z.of_nat <$> seq 0 (Z.to_nat n).

(** ** Data model *)

(** One departure dictionary; [platform] is [None] when the key is absent. *)
Record Departure := mkDeparture {
  aimed_departure_time : PyValue;
  expected_departure_time : PyValue;
  destination_name : string;
  platform : option string;
  calling_at_list : string
}.

Record Journey := mkJourney {
  departureStation : string;
  destinationStation : string;
  screen1Platform : string;
  outOfHoursName : option string
}.

Record Api := mkApi {
  apiKey : string;
  operatingHours : string
}.

Record Config := mkConfig {
  refreshTime : Z;
  targetFPS : Z;
  api : Api;
  journey : Journey;
  firstDepartureBold : bool;
  showDepartureNumbers : bool
}.

(** A mode-L image: its size and the pixel access object of [bitmap.load()]. *)
Record Bitmap := mkBitmap {
  bmp_width : Z;
  bmp_height : Z;
  bmp_pixel : Z -> Z -> Z
}.

(** What the code uses of a FreeType font: its name tuple, the bounding
    box of a text and the mask that [draw.text] paints at the origin. *)
Record FreeTypeFont := mkFont {
  getname : string * string;
  getbbox : string -> Z * Z * Z * Z;
  text_mask : string -> Z -> Z -> Z
}.

(** The four fonts of [_load_fonts]. *)
Record Fonts := mkFonts {
  font : FreeTypeFont;
  font_bold : FreeTypeFont;
  font_bold_tall : FreeTypeFont;
  font_bold_large : FreeTypeFont
}.

(** ** Bitmap text cache

    The cache dictionary holds references to image objects.  Object
    identity is modelled by the position of the image in a store that only
    grows: [Image.new] allocates at the end. *)

Record CacheEntry := mkEntry {
  bitmap : nat;
  txt_width : Z;
  txt_height : Z
}.

Record BitmapTextCache := mkCache {
  cache : gmap string CacheEntry;
  images : list Bitmap
}.

(** [BitmapTextCache.__init__]. *)
Definition cache_empty : BitmapTextCache := {| cache := ∅; images := [] |}.

(** [BitmapTextCache.get_bitmap]. *)
Definition get_bitmap (text : string) (f : FreeTypeFont) (c : BitmapTextCache)
  : (Z * Z * nat) * BitmapTextCache :=
  let name_tuple := getname f in
  let font_key := fst name_tuple +:+ snd name_tuple in
  let key := text +:+ font_key in
  match cache c !! key with
  | Some cached => ((txt_width cached, txt_height cached, bitmap cached), c)
  | None =>
      let '(_, _, w, h) := getbbox f text in
      let bmp := {| bmp_width := w; bmp_height := h; bmp_pixel := text_mask f text |} in
      let ref := length (images c) in
      ((w, h, ref),
       {| cache := <[key := {| bitmap := ref; txt_width := w; txt_height := h |}]> (cache c);
          images := images c ++ [bmp] |})
  end.

(** A sequence of lookups, the cache threaded through. *)
Fixpoint get_bitmaps (reqs : list (string * FreeTypeFont)) (c : BitmapTextCache)
  : BitmapTextCache :=
  match reqs with
  | [] => c
  | (text, f) :: reqs' => get_bitmaps reqs' (snd (get_bitmap text f c))
  end.

(** The dictionary key of a text in a font. *)
Definition cache_key (text : string) (f : FreeTypeFont) : string :=
  text +:+ (fst (getname f) +:+ snd (getname f)).

(** Every entry refers to an image in the store, of the size it records. *)
Definition cache_wf (c : BitmapTextCache) : Prop :=
  forall (k : string) (e : CacheEntry),
    cache c !! k = Some e ->
    exists bmp, images c !! bitmap e = Some bmp /\
                bmp_width bmp = txt_width e /\ bmp_height bmp = txt_height e.

(** [c'] has every entry and every image of [c], unchanged. *)
Definition cache_extends (c c' : BitmapTextCache) : Prop :=
  (forall (k : string) (e : CacheEntry), cache c !! k = Some e -> cache c' !! k = Some e) /\
  (forall (i : nat) (bmp : Bitmap), images c !! i = Some bmp -> images c' !! i = Some bmp).

(** ** Blit primitives

    Each returns the points handed to [draw.point], in order. *)

(** [_draw_bitmap]. *)
Definition draw_bitmap (x y : Z) (bmp : Bitmap) : list (Z * Z) :=
  py ← range (bmp_height bmp);
  px ← range (bmp_width bmp);
  if 0 <? bmp_pixel bmp px py then
    if (0 <=? x + px) && (x + px <? 256) && (0 <=? y + py) && (y + py <? 64)
    then [(x + px, y + py)] else []
  else [].

(** [_draw_bitmap_clipped]. *)
Definition draw_bitmap_clipped (x y : Z) (bmp : Bitmap) (clip_x_start clip_width : Z)
  : list (Z * Z) :=
  let clip_x_end := clip_x_start + clip_width in
  let clip_y_start := y in
  let clip_y_end := y + 10 in
  py ← range (bmp_height bmp);
  px ← range (bmp_width bmp);
  if 0 <? bmp_pixel bmp px py then
    let screen_x := x + px in
    let screen_y := y + py in
    if (clip_x_start <=? screen_x) && (screen_x <? clip_x_end) &&
       (clip_y_start <=? screen_y) && (screen_y <? clip_y_end) &&
       (0 <=? screen_x) && (screen_x <? 256) &&
       (0 <=? screen_y) && (screen_y <? 22)
    then [(screen_x, screen_y)] else []
  else [].

(** A call of one of the two primitives, the bitmap given by reference. *)
Inductive DrawCall :=
| Blit (x y : Z) (bmp : nat)
| BlitClipped (x y : Z) (bmp : nat) (clip_x_start clip_width : Z).

(** The points a call writes, given the image store. *)
Definition call_points (store : list Bitmap) (c : DrawCall) : list (Z * Z) :=
  match c with
  | Blit x y r =>
      match store !! r with Some bmp => draw_bitmap x y bmp | None => [] end
  | BlitClipped x y r cs cw =>
      match store !! r with Some bmp => draw_bitmap_clipped x y bmp cs cw | None => [] end
  end.

(** The frame buffer: [Image.new('RGB', (256, 64), 'black')] and the
    effect of [draw.point(..., fill='yellow')]. *)
Inductive Colour := Black | Yellow.

Definition Canvas := Z -> Z -> Colour.

Definition canvas_new : Canvas := fun _ _ => Black.

Definition point (p : Z * Z) (cv : Canvas) : Canvas :=
  fun x y => if (x =? fst p) && (y =? snd p) then Yellow else cv x y.

Definition paint (pts : list (Z * Z)) (cv : Canvas) : Canvas :=
  fold_left (fun acc p => point p acc) pts cv.

(** ** The board *)

Record Board := mkBoard {
  config : Config;
  fonts : Fonts;
  bitmap_cache : BitmapTextCache;
  departure_data : option (list Departure);
  station_name : string;
  scroll : ScrollState;
  station_render_count : Z;
  window_title : string
}.

Definition set_cache (c : BitmapTextCache) (b : Board) : Board :=
  {| config := config b; fonts := fonts b; bitmap_cache := c;
     departure_data := departure_data b; station_name := station_name b;
     scroll := scroll b; station_render_count := station_render_count b;
     window_title := window_title b |}.

Definition set_scroll (s : ScrollState) (b : Board) : Board :=
  {| config := config b; fonts := fonts b; bitmap_cache := bitmap_cache b;
     departure_data := departure_data b; station_name := station_name b;
     scroll := s; station_render_count := station_render_count b;
     window_title := window_title b |}.

Definition set_departure_data (d : option (list Departure)) (b : Board) : Board :=
  {| config := config b; fonts := fonts b; bitmap_cache := bitmap_cache b;
     departure_data := d; station_name := station_name b;
     scroll := scroll b; station_render_count := station_render_count b;
     window_title := window_title b |}.

(** [__init__], the window and the clock left aside. *)
Definition board_init (cfg : Config) (fs : Fonts) : Board :=
  {| config := cfg; fonts := fs; bitmap_cache := cache_empty;
     departure_data := None; station_name := "";
     scroll := scroll_init; station_render_count := 0;
     window_title := "UK Train Departure Display" |}.

(** ** Row texts *)

(** [_get_status_text]. *)
Definition get_status_text (departure : Departure) : string :=
  let expected := expected_departure_time departure in
  let aimed := aimed_departure_time departure in
  if py_eqb expected (PyStr "On time") then "On time"
  else if py_eqb expected (PyStr "Cancelled") then "Cancelled"
  else if py_eqb expected (PyStr "Delayed") then "Delayed"
  else if py_is_str expected && negb (py_eqb expected aimed)
       then "Exp " +:+ py_format expected
  else "On time".

(** The platform label of [_draw_departure_row] (line 240). *)
Definition platform_text (p : string) : string :=
  if String.eqb (lower p) "bus" then "BUS" else "Plat " +:+ p.

(** The left-hand text of [_draw_departure_row] (lines 218-228). *)
Definition train_text (cfg : Config) (departure : Departure) (y_pos : Z) : string :=
  let time_str := py_format (aimed_departure_time departure) in
  let dest_str := destination_name departure in
  if showDepartureNumbers cfg && (y_pos =? 0) then
    "1st  " +:+ time_str +:+ "  " +:+ dest_str
  else if showDepartureNumbers cfg && (y_pos =? 24) then
    "2nd  " +:+ time_str +:+ "  " +:+ dest_str
  else if showDepartureNumbers cfg && (y_pos =? 36) then
    "3rd  " +:+ time_str +:+ "  " +:+ dest_str
  else time_str +:+ "  " +:+ dest_str.

(** ** Frame composition

    Every drawing method returns the board (its cache and animation state
    may have changed) and the primitive calls it made, in order. *)

(** [_draw_scrolling_text]. *)
Definition draw_scrolling_text (text : string) (x_offset y_pos max_width : Z)
    (b : Board) : Board * list DrawCall :=
  let '((w, h, bmp), c) := get_bitmap text (font (fonts b)) (bitmap_cache b) in
  let s := scroll b in
  let call :=
    if has_elevated s then
      BlitClipped (x_offset + pixels_left s - 1) y_pos bmp x_offset max_width
    else
      BlitClipped x_offset (y_pos + h - pixels_up s) bmp x_offset max_width in
  (set_scroll (scroll_advance w h s) (set_cache c b), [call]).

(** [_draw_departure_row]. *)
Definition draw_departure_row (departure : Departure) (y_pos : Z)
    (f : FreeTypeFont) (show_calling : bool) (b : Board) : Board * list DrawCall :=
  let '((w, h, bmp), c1) :=
    get_bitmap (train_text (config b) departure y_pos) f (bitmap_cache b) in
  let status_text := get_status_text departure in
  let '((w_status, h_status, status_bitmap), c2) :=
    get_bitmap status_text (font (fonts b)) c1 in
  let '(c3, plat_calls) :=
    match platform departure with
    | Some p =>
        let '((w_plat, h_plat, plat_bitmap), c3) :=
          get_bitmap (platform_text p) (font (fonts b)) c2 in
        (c3, [Blit (256 - w_status - w_plat - 5) y_pos plat_bitmap])
    | None => (c2, [])
    end in
  let row_calls :=
    [Blit 0 y_pos bmp; Blit (256 - w_status) y_pos status_bitmap] ++ plat_calls in
  if show_calling then
    let '((w_call, h_call, call_bitmap), c4) :=
      get_bitmap "Calling at: " (font (fonts b)) c3 in
    let stations := calling_at_list departure in
    let '(b', scroll_calls) :=
      draw_scrolling_text stations w_call (y_pos + 12) (256 - w_call) (set_cache c4 b) in
    (b', row_calls ++ [Blit 0 (y_pos + 12) call_bitmap] ++ scroll_calls)
  else (set_cache c3 b, row_calls).

(** [_draw_departures]. *)
Definition draw_departures (b : Board) : Board * list DrawCall :=
  match default [] (departure_data b) with
  | [] => (b, [])
  | d0 :: rest =>
      let first_font :=
        if firstDepartureBold (config b) then font_bold (fonts b) else font (fonts b) in
      let '(b1, calls1) := draw_departure_row d0 0 first_font true b in
      match rest with
      | [] => (b1, calls1)
      | d1 :: rest' =>
          let '(b2, calls2) := draw_departure_row d1 24 (font (fonts b1)) false b1 in
          match rest' with
          | [] => (b2, calls1 ++ calls2)
          | d2 :: _ =>
              let '(b3, calls3) := draw_departure_row d2 36 (font (fonts b2)) false b2 in
              (b3, calls1 ++ calls2 ++ calls3)
          end
      end
  end.

(** [_draw_no_trains]. *)
Definition draw_no_trains (b : Board) : Board * list DrawCall :=
  let station_text :=
    if truthy (station_name b) then station_name b
    else default "" (outOfHoursName (journey (config b))) in
  let text1 := "Welcome to" in
  let '((w1, h1, bmp1), c1) := get_bitmap text1 (font_bold (fonts b)) (bitmap_cache b) in
  let '((w2, h2, bmp2), c2) := get_bitmap station_text (font_bold (fonts b)) c1 in
  let text3 := "No trains scheduled" in
  let '((w3, h3, bmp3), c3) := get_bitmap text3 (font (fonts b)) c2 in
  (set_cache c3 b,
   [Blit ((256 - w1) / 2) 5 bmp1;
    Blit ((256 - w2) / 2) 17 bmp2;
    Blit ((256 - w3) / 2) 35 bmp3]).

(** [_draw_time]; [now] is the wall clock as (hour, minute, second). *)
Definition draw_time (now : string * string * string) (b : Board)
  : Board * list DrawCall :=
  let '(hour, minute, second) := now in
  let hm_text := hour +:+ ":" +:+ minute in
  let s_text := ":" +:+ second in
  let '((w1, h1, hm_bitmap), c1) :=
    get_bitmap hm_text (font_bold_large (fonts b)) (bitmap_cache b) in
  let '((w2, h2, s_bitmap), c2) := get_bitmap s_text (font_bold_tall (fonts b)) c1 in
  let total_width := w1 + w2 in
  let start_x := (256 - total_width) / 2 in
  (set_cache c2 b, [Blit start_x 50 hm_bitmap; Blit (start_x + w1) 55 s_bitmap]).

(** The branch of [render_frame] that draws the board (lines 127-130). *)
Definition draw_board (b : Board) : Board * list DrawCall :=
  match departure_data b with
  | None => draw_no_trains b
  | Some [] => draw_no_trains b
  | Some (_ :: _) => draw_departures b
  end.

(** ** Data refresh *)

(** The collaborators of [_refresh_data]: the builtin [int], [isRun] and
    [loadDeparturesForStation].  [None] stands for a raised exception. *)
Record DataSource := mkSource {
  py_int : string -> option Z;
  isRun : Z -> Z -> bool;
  loadDeparturesForStation :
    Journey -> string -> string -> option (option (list Departure) * string * string)
}.

(** Outcome of the operating-hours check (lines 153-158). *)
Inductive HoursGate := GateOpen | GateClosed | GateError.

Definition operating_hours_gate (src : DataSource) (cfg : Config) : HoursGate :=
  if truthy (operatingHours (api cfg)) then
    match split "-" (operatingHours (api cfg)) with
    | [h0; h1] =>
        match py_int src h0 with
        | None => GateError
        | Some a =>
            match py_int src h1 with
            | None => GateError
            | Some z => if isRun src a z then GateOpen else GateClosed
            end
        end
    | _ => GateOpen
    end
  else GateOpen.

(** [_refresh_data]. *)
Definition refresh_data (src : DataSource) (b : Board) : Board :=
  match operating_hours_gate src (config b) with
  | GateClosed => set_departure_data (Some []) b
  | GateError => set_departure_data (Some []) b
  | GateOpen =>
      match loadDeparturesForStation src (journey (config b)) (apiKey (api (config b))) "10" with
      | None => set_departure_data (Some []) b
      | Some (departures, station, dest_station) =>
          let plat := screen1Platform (journey (config b)) in
          let data :=
            if truthy plat then
              Some (filter (fun dep => platform dep = Some plat) (default [] departures))
            else departures in
          {| config := config b; fonts := fonts b; bitmap_cache := bitmap_cache b;
             departure_data := data;
             station_name := station;
             scroll := scroll_init;
             station_render_count := 0;
             window_title :=
               station +:+ (if truthy dest_station then " to " +:+ dest_station else "")
                       +:+ " - Departures" |}
      end
  end.

(** [render_frame] up to the hand-over to the window.  [refresh_due] is
    the outcome of the wall-clock comparison of line 122. *)
Definition render_frame (src : DataSource) (refresh_due : bool)
    (now : string * string * string) (b : Board) : Board * list DrawCall :=
  let b0 := if refresh_due then refresh_data src b else b in
  let '(b1, calls1) := draw_board b0 in
  let '(b2, calls2) := draw_time now b1 in
  (b2, calls1 ++ calls2).

(** ** Further string operations *)

(** [sep.join(l)]. *)
Fixpoint join (sep : string) (l : list string) : string :=
  match l with
  | [] => EmptyString
  | x :: r =>
      match r with
      | [] => x
      | _ :: _ => x +:+ sep +:+ join sep r
      end
  end.

(** [s.count(c)] for a one-character [c]. *)
Fixpoint count_char (c : ascii) (s : string) : nat :=
  match s with
  | EmptyString => O
  | String a s' => ((if Ascii.eqb a c then 1 else 0) + count_char c s')%nat
  end.

(** ** The frame loop *)

(** One tick of [update]: the data source as it answers at that moment,
    whether the refresh interval has elapsed, and the wall clock. *)
Record Tick := mkTick {
  tick_source : DataSource;
  tick_refresh_due : bool;
  tick_now : string * string * string
}.

(** The animation loop: [update] called once per tick. *)
Fixpoint run_frames (ticks : list Tick) (b : Board) : Board :=
  match ticks with
  | [] => b
  | t :: ticks' =>
      run_frames ticks'
        (render_frame (tick_source t) (tick_refresh_due t) (tick_now t) b).1
  end.

(** [run]: the initial data load, then the animation loop. *)
Definition run (src : DataSource) (ticks : list Tick) (b : Board) : Board :=
  run_frames ticks (refresh_data src b).

(** ** Invariants *)

(** The complete range of the animator's counters for a text of size
    [w] x [h]. *)
Definition scroll_in_range (w h : Z) (s : ScrollState) : Prop :=
  if has_elevated s then
    pixels_up s = 0 /\
    ((pause_count s = 101 /\ 0 <= pixels_left s <= 1) \/
     (pause_count s = 0 /\ - (w + 1) <= pixels_left s <= 0))
  else
    0 <= pixels_left s <= 1 /\ 0 <= pixels_up s <= h /\ 0 <= pause_count s <= 100.

(** A font that never measures a negative height. *)
Definition font_ok (f : FreeTypeFont) : Prop :=
  forall text : string, 0 <= (getbbox f text).2.

Definition fonts_ok (fs : Fonts) : Prop :=
  font_ok (font fs) /\ font_ok (font_bold fs) /\
  font_ok (font_bold_tall fs) /\ font_ok (font_bold_large fs).

(** No entry records a negative height. *)
Definition heights_ok (c : BitmapTextCache) : Prop :=
  forall (k : string) (e : CacheEntry), cache c !! k = Some e -> 0 <= txt_height e.

(** The animation fits the text it is shown with: it is in its initial
    state, or the calling-at text of the first departure is cached and
    the counters are within its height. *)
Definition scroll_ok (b : Board) : Prop :=
  forall (d0 : Departure) (rest : list Departure),
    departure_data b = Some (d0 :: rest) ->
    scroll b = scroll_init \/
    exists e : CacheEntry,
      cache (bitmap_cache b) !! cache_key (calling_at_list d0) (font (fonts b)) = Some e /\
      scroll_bounded (txt_height e) (scroll b).

Definition board_ok (b : Board) : Prop :=
  fonts_ok (fonts b) /\ heights_ok (bitmap_cache b) /\ scroll_ok b.

(** What the drawing methods leave alone, and how they change the cache. *)
Definition board_step (b b' : Board) : Prop :=
  config b' = config b /\ fonts b' = fonts b /\
  departure_data b' = departure_data b /\ station_name b' = station_name b /\
  cache_extends (bitmap_cache b) (bitmap_cache b') /\
  (fonts_ok (fonts b) -> heights_ok (bitmap_cache b) -> heights_ok (bitmap_cache b')).

(** Calls of [_draw_bitmap_clipped]. *)
Definition is_clipped (c : DrawCall) : bool :=
  match c with Blit _ _ _ => false | BlitClipped _ _ _ _ _ => true end.

(** The line a call is placed on. *)
Definition call_y (c : DrawCall) : Z :=
  match c with Blit _ y _ => y | BlitClipped _ y _ _ _ => y end.

(** The image a call refers to, and whether the store has it. *)
Definition call_ref (c : DrawCall) : nat :=
  match c with Blit _ _ r => r | BlitClipped _ _ r _ _ => r end.

Definition call_valid (cch : BitmapTextCache) (c : DrawCall) : Prop :=
  is_Some (images cch !! call_ref c).

(** ** Sample inputs *)

(** A 3 x 3 bitmap, all pixels lit. *)
Definition solid3 : Bitmap :=
  {| bmp_width := 3; bmp_height := 3; bmp_pixel := fun _ _ => 255 |}.

(** Decimal digits only: a stand-in for the builtin [int] on the inputs
    used below. *)
Fixpoint parse_digits (s : string) (acc : Z) : option Z :=
  match s with
  | EmptyString => Some acc
  | String c s' =>
      let n := Z.of_nat (nat_of_ascii c) in
      if (48 <=? n) && (n <=? 57) then parse_digits s' (10 * acc + (n - 48)) else None
  end.

Definition sample_int (s : string) : option Z :=
  match s with EmptyString => None | _ => parse_digits s 0 end.

(** A font whose glyphs are 6 x 10 blocks. *)
Definition block_font (family style : string) : FreeTypeFont :=
  {| getname := (family, style);
     getbbox := fun text => (0, 0, 6 * Z.of_nat (String.length text), 10);
     text_mask := fun _ _ _ => 255 |}.

Definition sample_fonts : Fonts :=
  {| font := block_font "Dot Matrix" "Regular";
     font_bold := block_font "Dot Matrix" "Bold";
     font_bold_tall := block_font "Dot Matrix" "Bold Tall";
     font_bold_large := block_font "Dot Matrix" "Bold" |}.

Definition sample_config (hours : string) : Config :=
  {| refreshTime := 180; targetFPS := 70;
     api := {| apiKey := "key"; operatingHours := hours |};
     journey := {| departureStation := "PAD"; destinationStation := "";
                   screen1Platform := ""; outOfHoursName := Some "London Paddington" |};
     firstDepartureBold := true; showDepartureNumbers := false |}.

Definition sample_departure (plat : option string) : Departure :=
  {| aimed_departure_time := PyStr "10:32";
     expected_departure_time := PyStr "On time";
     destination_name := "Reading";
     platform := plat;
     calling_at_list := "Slough, Maidenhead, Twyford, Reading" |}.

(** A board in the middle of the horizontal scroll. *)
Definition sample_board (hours : string) : Board :=
  {| config := sample_config hours; fonts := sample_fonts;
     bitmap_cache := cache_empty;
     departure_data := Some [sample_departure (Some "4")];
     station_name := "London Paddington";
     scroll := mkScroll (-50) 0 true 0;
     station_render_count := 0;
     window_title := "London Paddington - Departures" |}.

(** A data source that is inside or outside operating hours and that
    answers or raises. *)
Definition sample_source (running : bool) (answer : bool) : DataSource :=
  {| py_int := sample_int;
     isRun := fun _ _ => running;
     loadDeparturesForStation := fun _ _ _ =>
       if answer then Some (Some [sample_departure (Some "4")], "London Paddington", "")
       else None |}.

(** A font with the name of the bold font and glyphs twice the size, as
    the large clock font is. *)
Definition large_block_font (family style : string) : FreeTypeFont :=
  {| getname := (family, style);
     getbbox := fun text => (0, 0, 12 * Z.of_nat (String.length text), 20);
     text_mask := fun _ _ _ => 255 |}.

(** A tick without refresh and one with a refresh that loads data. *)
Definition sample_tick (refresh_due : bool) : Tick :=
  {| tick_source := sample_source true true;
     tick_refresh_due := refresh_due;
     tick_now := ("10"%string, "05"%string, "07"%string) |}.

(** ** Animator: one step *)

Section ScrollStep.
Variables w h : Z.

Lemma advance_reveal_rise s :
  has_elevated s = false -> pixels_up s <> h ->
  scroll_advance w h s =
    mkScroll (pixels_left s) (pixels_up s + 1) false (pause_count s).
Proof.
  intros He Hu. unfold scroll_advance. rewrite He.
  destruct (Z.eqb_spec (pixels_up s) h); [contradiction | reflexivity].
Qed.

Lemma advance_reveal_hold s :
  has_elevated s = false -> pixels_up s = h -> pause_count s < 100 ->
  scroll_advance w h s =
    mkScroll (pixels_left s) (pixels_up s) false (pause_count s + 1).
Proof.
  intros He Hu Hp. unfold scroll_advance. rewrite He.
  destruct (Z.eqb_spec (pixels_up s) h); [| contradiction].
  cbv zeta. destruct (Z.ltb_spec 100 (pause_count s + 1)); [lia | reflexivity].
Qed.

Lemma advance_reveal_done s :
  has_elevated s = false -> pixels_up s = h -> 100 <= pause_count s ->
  scroll_advance w h s =
    mkScroll (pixels_left s) 0 true (pause_count s + 1).
Proof.
  intros He Hu Hp. unfold scroll_advance. rewrite He.
  destruct (Z.eqb_spec (pixels_up s) h); [| contradiction].
  cbv zeta. destruct (Z.ltb_spec 100 (pause_count s + 1)); [reflexivity | lia].
Qed.

Lemma advance_scroll_exit s :
  has_elevated s = true -> w < - pixels_left s -> pause_count s < 8 ->
  scroll_advance w h s = mkScroll 0 (pixels_up s) false (pause_count s + 1).
Proof.
  intros He Hl Hp. unfold scroll_advance. rewrite He.
  destruct (Z.ltb_spec w (- pixels_left s)); [| lia].
  destruct (Z.ltb_spec (pause_count s) 8); [reflexivity | lia].
Qed.

Lemma advance_scroll_move s :
  has_elevated s = true -> ~ (w < - pixels_left s /\ pause_count s < 8) ->
  scroll_advance w h s =
    mkScroll (pixels_left s - 1) (pixels_up s) true 0.
Proof.
  intros He Hn. unfold scroll_advance. rewrite He.
  destruct (Z.ltb_spec w (- pixels_left s));
    destruct (Z.ltb_spec (pause_count s) 8); simpl; try reflexivity.
  exfalso. apply Hn. split; assumption.
Qed.

Lemma scroll_frames_add n m s :
  scroll_frames w h (n + m) s = scroll_frames w h m (scroll_frames w h n s).
Proof.
  revert s. induction n as [| n IH]; intros s; simpl; [reflexivity | apply IH].
Qed.

Lemma scroll_frames_last n s :
  scroll_frames w h (S n) s = scroll_advance w h (scroll_frames w h n s).
Proof.
  replace (S n) with (n + 1)%nat by lia. rewrite scroll_frames_add. reflexivity.
Qed.

End ScrollStep.

(** ** Animator: the transition table *)

(** C1 (as amended): the transitions of one animator step.  In the reveal
    phase with the text flush ([pixels_up = h]) the pause counter is
    incremented, and the step moves to the scroll phase, with [pixels_up]
    reset to 0, when the counter was at least 100 before the step; the
    counter keeps its incremented value there and is set to 0 by the scroll
    step that follows.  In the scroll phase the step moves back to the
    reveal phase, with [pixels_left] reset to 0 and the counter
    incremented, exactly when the text has left ([w < - pixels_left]) and
    the counter is below 8; in every other case it stays in the scroll
    phase, decrements [pixels_left] and sets the counter to 0. *)
Theorem scroll_transition_table (w h : Z) (s : ScrollState) :
  (has_elevated s = false -> pixels_up s = h -> 100 <= pause_count s ->
     scroll_advance w h s = mkScroll (pixels_left s) 0 true (pause_count s + 1) /\
     scroll_advance w h (scroll_advance w h s) =
       mkScroll (pixels_left s - 1) 0 true 0) /\
  (has_elevated s = false -> pixels_up s = h -> pause_count s < 100 ->
     scroll_advance w h s =
       mkScroll (pixels_left s) (pixels_up s) false (pause_count s + 1)) /\
  (has_elevated s = false -> pixels_up s <> h ->
     scroll_advance w h s =
       mkScroll (pixels_left s) (pixels_up s + 1) false (pause_count s)) /\
  (has_elevated s = true -> w < - pixels_left s /\ pause_count s < 8 ->
     scroll_advance w h s = mkScroll 0 (pixels_up s) false (pause_count s + 1)) /\
  (has_elevated s = true -> ~ (w < - pixels_left s /\ pause_count s < 8) ->
     scroll_advance w h s = mkScroll (pixels_left s - 1) (pixels_up s) true 0) /\
  (has_elevated s = true ->
     (has_elevated (scroll_advance w h s) = false <->
      w < - pixels_left s /\ pause_count s < 8)).
Proof.
  split; [| split; [| split; [| split; [| split]]]].
  - intros He Hu Hp. split.
    + apply advance_reveal_done; assumption.
    + rewrite (advance_reveal_done w h s) by assumption.
      rewrite advance_scroll_move; simpl; [reflexivity | reflexivity | lia].
  - apply advance_reveal_hold.
  - apply advance_reveal_rise.
  - intros He [Hl Hp]. apply advance_scroll_exit; assumption.
  - apply advance_scroll_move.
  - intros He. split.
    + intros Hout.
      destruct (Z.ltb_spec w (- pixels_left s)) as [Hl | Hl];
        destruct (Z.ltb_spec (pause_count s) 8) as [Hp | Hp];
        try (split; assumption);
        rewrite advance_scroll_move in Hout by (assumption || lia);
        discriminate.
    + intros [Hl Hp]. rewrite advance_scroll_exit by assumption. reflexivity.
Qed.

(** The table at a state that has just finished its pause and at a state
    whose text has just left the viewport. *)
Lemma scroll_transition_table_witness :
  scroll_advance 3 10 (mkScroll 1 10 false 100) = mkScroll 1 0 true 101 /\
  scroll_advance 3 10 (mkScroll (-4) 0 true 0) = mkScroll 0 0 false 1 /\
  scroll_advance 3 10 (mkScroll (-4) 0 true 8) = mkScroll (-5) 0 true 0.
Proof.
  split; [| split].
  - apply (scroll_transition_table 3 10 (mkScroll 1 10 false 100));
      simpl; [reflexivity | reflexivity | lia].
  - apply (scroll_transition_table 3 10 (mkScroll (-4) 0 true 0));
      simpl; [reflexivity | lia].
  - apply (scroll_transition_table 3 10 (mkScroll (-4) 0 true 8));
      simpl; [reflexivity | lia].
Defined.

(** C1 as stated fails: entering the scroll phase leaves the pause counter
    at its incremented value, not 0; and a text that has left the viewport
    with a counter below 8 ends the scroll phase at once, while a counter
    of 8 or more keeps it scrolling. *)
Lemma scroll_table_as_stated_fails :
  pause_count (scroll_advance 3 10 (mkScroll 1 10 false 101)) = 102 /\
  has_elevated (scroll_advance 3 10 (mkScroll (-4) 0 true 0)) = false /\
  has_elevated (scroll_advance 3 10 (mkScroll (-4) 0 true 8)) = true.
Proof. repeat split. Qed.

(** ** Animator: bounds *)

Lemma scroll_advance_bounded (w h : Z) (s : ScrollState) :
  0 <= h -> scroll_bounded h s -> scroll_bounded h (scroll_advance w h s).
Proof.
  intros Hh [Hup Hleft]. unfold scroll_bounded, scroll_advance.
  destruct (has_elevated s).
  - destruct ((w <? - pixels_left s) && (pause_count s <? 8)); simpl; lia.
  - destruct (Z.eqb_spec (pixels_up s) h) as [Heq | Hne].
    + cbv zeta. destruct (100 <? pause_count s + 1); simpl; lia.
    + simpl. lia.
Qed.

(** C4: with a text of height [h >= 0], after any number of frames from
    the initial state [pixels_up] lies in [[0, h]] and [pixels_left] is at
    most 1; every single step preserves these bounds. *)
Theorem scroll_bounds_invariant (w h : Z) (n : nat) :
  0 <= h ->
  scroll_bounded h (scroll_frames w h n scroll_init) /\
  (forall s, scroll_bounded h s -> scroll_bounded h (scroll_advance w h s)).
Proof.
  intros Hh. split.
  - induction n as [| n IH].
    + simpl. unfold scroll_bounded. simpl. lia.
    + rewrite scroll_frames_last. apply scroll_advance_bounded; assumption.
  - intros s. apply scroll_advance_bounded. assumption.
Qed.

Lemma scroll_bounds_invariant_witness :
  0 <= 10 /\ scroll_bounded 10 (scroll_frames 40 10 500 scroll_init).
Proof.
  assert (H : 0 <= 10) by lia.
  split; [exact H | exact (proj1 (scroll_bounds_invariant 40 10 500 H))].
Defined.

(** ** Animator: the cycle *)

Section ScrollCycle.
Variables w h : Z.

(** Rising: [k] frames raise the text by [k] pixels. *)
Lemma frames_rise (k : nat) : forall l u p,
  u + Z.of_nat k <= h ->
  scroll_frames w h k (mkScroll l u false p) =
    mkScroll l (u + Z.of_nat k) false p.
Proof.
  induction k as [| k IH]; intros l u p Hk.
  - simpl. f_equal. lia.
  - cbn [scroll_frames]. rewrite advance_reveal_rise; simpl; [| reflexivity | lia].
    rewrite IH by lia. f_equal. lia.
Qed.

(** Holding: flush text, the pause counter runs up to 100. *)
Lemma frames_hold (k : nat) : forall l p,
  p + Z.of_nat k <= 100 ->
  scroll_frames w h k (mkScroll l h false p) =
    mkScroll l h false (p + Z.of_nat k).
Proof.
  induction k as [| k IH]; intros l p Hk.
  - simpl. f_equal. lia.
  - cbn [scroll_frames].
    rewrite advance_reveal_hold; simpl; [| reflexivity | reflexivity | lia].
    rewrite IH by lia. f_equal. lia.
Qed.

(** Marching left while some of the text is still inside. *)
Lemma frames_march (k : nat) : forall l u,
  Z.of_nat k - l - 1 <= w ->
  scroll_frames w h k (mkScroll l u true 0) =
    mkScroll (l - Z.of_nat k) u true 0.
Proof.
  induction k as [| k IH]; intros l u Hk.
  - simpl. f_equal. lia.
  - cbn [scroll_frames]. rewrite advance_scroll_move; simpl; [| reflexivity | lia].
    rewrite IH by lia. f_equal. lia.
Qed.

(** One full cycle from a flush-left reveal start with counter [p]. *)
Lemma frames_cycle (l p : Z) (n : nat) :
  0 <= w -> 0 <= h -> 0 <= p <= 100 -> 0 <= l <= 1 ->
  n = Z.to_nat (h + (100 - p) + 1 + 1 + (w + l) + 1) ->
  scroll_frames w h n (mkScroll l 0 false p) = scroll_restart.
Proof.
  intros Hw Hh Hp Hl ->.
  replace (Z.to_nat (h + (100 - p) + 1 + 1 + (w + l) + 1))
    with (Z.to_nat h + (Z.to_nat (100 - p) + (1 + (1 + (Z.to_nat (w + l) + 1)))))%nat
    by lia.
  rewrite !scroll_frames_add.
  rewrite frames_rise by lia.
  replace (0 + Z.of_nat (Z.to_nat h)) with h by lia.
  rewrite frames_hold by lia.
  replace (p + Z.of_nat (Z.to_nat (100 - p))) with 100 by lia.
  cbn [scroll_frames].
  rewrite (advance_reveal_done w h (mkScroll l h false 100));
    simpl; [| reflexivity | reflexivity | lia].
  rewrite (advance_scroll_move w h (mkScroll l 0 true (100 + 1)));
    simpl; [| reflexivity | lia].
  rewrite frames_march by lia.
  rewrite advance_scroll_exit; simpl; [reflexivity | reflexivity | lia | lia].
Qed.

(** After at least one frame the animator is never again in the reveal
    phase with both [pause_count] and [pixels_up] at 0. *)
Lemma frames_nonneg (n : nat) : forall s,
  0 <= pause_count s -> 0 <= pixels_up s ->
  0 <= pause_count (scroll_frames w h n s) /\
  0 <= pixels_up (scroll_frames w h n s).
Proof.
  induction n as [| n IH]; intros s Hp Hu; [simpl; lia |].
  cbn [scroll_frames]. apply IH; unfold scroll_advance;
    destruct (has_elevated s);
    repeat match goal with |- context [if ?c then _ else _] => destruct c end;
    simpl; lia.
Qed.

Lemma advance_not_fresh (s : ScrollState) :
  0 <= pause_count s -> 0 <= pixels_up s ->
  ~ fresh_reveal (scroll_advance w h s).
Proof.
  intros Hp Hu [He [Hc Hup]]. revert He Hc Hup. unfold scroll_advance.
  destruct (has_elevated s);
    repeat match goal with |- context [if ?c then _ else _] => destruct c end;
    simpl; intros; try discriminate; lia.
Qed.

Lemma frames_not_fresh (n : nat) :
  (1 <= n)%nat -> ~ fresh_reveal (scroll_frames w h n scroll_init).
Proof.
  intros Hn. destruct n as [| n]; [lia |].
  rewrite scroll_frames_last.
  destruct (frames_nonneg n scroll_init) as [Hp Hu]; [simpl; lia | simpl; lia |].
  apply advance_not_fresh; assumption.
Qed.

End ScrollCycle.

(** C3 (as amended): for every text width [w > 0] and height [h > 0], the
    animator started in the initial state is back at the start of a reveal
    ([pixels_up = 0], reveal phase) after exactly [h + w + 104] frames,
    which is below [h + w + 108]; there [pixels_left = 0] and
    [pause_count = 1], not 0; and from that state the same state recurs
    every [h + w + 102] frames. *)
Theorem scroll_cycle_returns (w h : Z) :
  0 < w -> 0 < h ->
  scroll_frames w h (Z.to_nat (h + w + 104)) scroll_init = scroll_restart /\
  (forall k : nat,
     scroll_frames w h (k * Z.to_nat (h + w + 102)) scroll_restart = scroll_restart) /\
  has_elevated scroll_restart = false /\ pixels_up scroll_restart = 0 /\
  h + w + 104 <= h + w + 108.
Proof.
  intros Hw Hh. split; [| split; [| repeat split; lia]].
  - apply (frames_cycle w h 1 0); lia.
  - intros k. induction k as [| k IH]; [reflexivity |].
    replace (S k * Z.to_nat (h + w + 102))%nat
      with (Z.to_nat (h + w + 102) + k * Z.to_nat (h + w + 102))%nat by lia.
    rewrite scroll_frames_add.
    assert (Hc : scroll_frames w h (Z.to_nat (h + w + 102)) scroll_restart
                 = scroll_restart) by (apply (frames_cycle w h 0 1); lia).
    rewrite Hc. exact IH.
Qed.

Lemma scroll_cycle_returns_witness :
  0 < 30 /\ 0 < 8 /\ scroll_frames 30 8 142 scroll_init = scroll_restart.
Proof.
  assert (Hw : 0 < 30) by lia. assert (Hh : 0 < 8) by lia.
  split; [exact Hw | split; [exact Hh |]].
  exact (proj1 (scroll_cycle_returns 30 8 Hw Hh)).
Defined.

(** C3 as stated fails: with a text of width 3 and height 2, no number of
    frames [n >= 1] brings the animator back to the reveal phase with
    [pause_count = 0] and [pixels_up = 0]. *)
Lemma scroll_cycle_never_fresh :
  ~ exists n : nat, (1 <= n)%nat /\ fresh_reveal (scroll_frames 3 2 n scroll_init).
Proof.
  intros [n [Hn Hf]]. exact (frames_not_fresh 3 2 n Hn Hf).
Qed.

(** ** Blit primitives *)

Lemma elem_of_range (n z : Z) : z ∈ range n <-> 0 <= z < n.
Proof.
  unfold range. rewrite list_elem_of_fmap. split.
  - intros [k [-> Hk]]. apply elem_of_seq in Hk. lia.
  - intros Hz. exists (Z.to_nat z). split; [lia |]. apply elem_of_seq. lia.
Qed.

(** The points of an unclipped blit: the lit pixels of the bitmap, moved
    to [(x, y)], that fall on the canvas. *)
Lemma elem_of_draw_bitmap (x y : Z) (bmp : Bitmap) (p : Z * Z) :
  p ∈ draw_bitmap x y bmp <->
  exists px py,
    0 <= px < bmp_width bmp /\ 0 <= py < bmp_height bmp /\
    0 < bmp_pixel bmp px py /\ p = (x + px, y + py) /\
    0 <= x + px < 256 /\ 0 <= y + py < 64.
Proof.
  unfold draw_bitmap. rewrite list_elem_of_bind. split.
  - intros [py [Hin Hpy]]. apply list_elem_of_bind in Hin as [px [Hin Hpx]].
    apply elem_of_range in Hpy. apply elem_of_range in Hpx.
    exists px, py.
    destruct (Z.ltb_spec 0 (bmp_pixel bmp px py)); [| inversion Hin].
    destruct (Z.leb_spec 0 (x + px)); [| inversion Hin].
    destruct (Z.ltb_spec (x + px) 256); [| inversion Hin].
    destruct (Z.leb_spec 0 (y + py)); [| inversion Hin].
    destruct (Z.ltb_spec (y + py) 64); [| inversion Hin].
    simpl in Hin. apply list_elem_of_singleton in Hin. repeat split; (lia || assumption).
  - intros (px & py & Hpx & Hpy & Hlit & -> & Hx & Hy).
    exists py. split; [| apply elem_of_range; assumption].
    apply list_elem_of_bind. exists px. split; [| apply elem_of_range; assumption].
    destruct (Z.ltb_spec 0 (bmp_pixel bmp px py)); [| lia].
    destruct (Z.leb_spec 0 (x + px)); [| lia].
    destruct (Z.ltb_spec (x + px) 256); [| lia].
    destruct (Z.leb_spec 0 (y + py)); [| lia].
    destruct (Z.ltb_spec (y + py) 64); [| lia].
    simpl. apply list_elem_of_singleton. reflexivity.
Qed.

(** The points of a clipped blit. *)
Lemma elem_of_draw_bitmap_clipped (x y : Z) (bmp : Bitmap) (cs cw : Z) (p : Z * Z) :
  p ∈ draw_bitmap_clipped x y bmp cs cw <->
  exists px py,
    0 <= px < bmp_width bmp /\ 0 <= py < bmp_height bmp /\
    0 < bmp_pixel bmp px py /\ p = (x + px, y + py) /\
    cs <= x + px < cs + cw /\ y <= y + py < y + 10 /\
    0 <= x + px < 256 /\ 0 <= y + py < 22.
Proof.
  unfold draw_bitmap_clipped. cbv zeta. rewrite list_elem_of_bind. split.
  - intros [py [Hin Hpy]]. apply list_elem_of_bind in Hin as [px [Hin Hpx]].
    apply elem_of_range in Hpy. apply elem_of_range in Hpx.
    exists px, py.
    destruct (Z.ltb_spec 0 (bmp_pixel bmp px py)); [| inversion Hin].
    destruct (Z.leb_spec cs (x + px)); [| inversion Hin].
    destruct (Z.ltb_spec (x + px) (cs + cw)); [| inversion Hin].
    destruct (Z.leb_spec y (y + py)); [| inversion Hin].
    destruct (Z.ltb_spec (y + py) (y + 10)); [| inversion Hin].
    destruct (Z.leb_spec 0 (x + px)); [| inversion Hin].
    destruct (Z.ltb_spec (x + px) 256); [| inversion Hin].
    destruct (Z.leb_spec 0 (y + py)); [| inversion Hin].
    destruct (Z.ltb_spec (y + py) 22); [| inversion Hin].
    simpl in Hin. apply list_elem_of_singleton in Hin. repeat split; (lia || assumption).
  - intros (px & py & Hpx & Hpy & Hlit & -> & Hcx & Hcy & Hx & Hy).
    exists py. split; [| apply elem_of_range; assumption].
    apply list_elem_of_bind. exists px. split; [| apply elem_of_range; assumption].
    destruct (Z.ltb_spec 0 (bmp_pixel bmp px py)); [| lia].
    destruct (Z.leb_spec cs (x + px)); [| lia].
    destruct (Z.ltb_spec (x + px) (cs + cw)); [| lia].
    destruct (Z.leb_spec y (y + py)); [| lia].
    destruct (Z.ltb_spec (y + py) (y + 10)); [| lia].
    destruct (Z.leb_spec 0 (x + px)); [| lia].
    destruct (Z.ltb_spec (x + px) 256); [| lia].
    destruct (Z.leb_spec 0 (y + py)); [| lia].
    destruct (Z.ltb_spec (y + py) 22); [| lia].
    simpl. apply list_elem_of_singleton. reflexivity.
Qed.

(** Painting changes no pixel that is not among the points. *)
Lemma paint_other (pts : list (Z * Z)) : forall (cv : Canvas) (px py : Z),
  (px, py) ∉ pts -> paint pts cv px py = cv px py.
Proof.
  induction pts as [| q pts IH]; intros cv px py Hnot; [reflexivity |].
  apply not_elem_of_cons in Hnot as [Hne Hrest].
  unfold paint in *. simpl. rewrite IH by assumption.
  unfold point. destruct q as [qx qy]. simpl.
  destruct (Z.eqb_spec px qx); destruct (Z.eqb_spec py qy); simpl; try reflexivity.
  subst. contradiction Hne. reflexivity.
Qed.

(** C5: whatever the bitmap and the placement, the unclipped blit writes
    only points with [0 <= x < 256] and [0 <= y < 64], and the clipped blit
    writes only points of [[cs, cs + cw)] by [[y, y + 10)] that lie on the
    canvas; both are total (points outside are dropped), and painting
    their points leaves every pixel outside these regions as it was. *)
Theorem blit_stays_inside (x y : Z) (bmp : Bitmap) (cs cw : Z) :
  Forall (fun p => 0 <= p.1 < 256 /\ 0 <= p.2 < 64) (draw_bitmap x y bmp) /\
  Forall (fun p => (cs <= p.1 < cs + cw /\ y <= p.2 < y + 10) /\
                   (0 <= p.1 < 256 /\ 0 <= p.2 < 64))
         (draw_bitmap_clipped x y bmp cs cw) /\
  (forall (cv : Canvas) (px py : Z),
     ~ (0 <= px < 256 /\ 0 <= py < 64) ->
     paint (draw_bitmap x y bmp) cv px py = cv px py) /\
  (forall (cv : Canvas) (px py : Z),
     ~ ((cs <= px < cs + cw /\ y <= py < y + 10) /\ (0 <= px < 256 /\ 0 <= py < 64)) ->
     paint (draw_bitmap_clipped x y bmp cs cw) cv px py = cv px py).
Proof.
  split; [| split; [| split]].
  - apply Forall_forall. intros p Hp.
    apply elem_of_draw_bitmap in Hp as (px & py & _ & _ & _ & -> & Hx & Hy).
    simpl. lia.
  - apply Forall_forall. intros p Hp.
    apply elem_of_draw_bitmap_clipped in Hp
      as (px & py & _ & _ & _ & -> & Hcx & Hcy & Hx & Hy).
    simpl. lia.
  - intros cv px py Hout. apply paint_other. intros Hin.
    apply elem_of_draw_bitmap in Hin as (qx & qy & _ & _ & _ & Heq & Hx & Hy).
    inversion Heq; subst. apply Hout. lia.
  - intros cv px py Hout. apply paint_other. intros Hin.
    apply elem_of_draw_bitmap_clipped in Hin
      as (qx & qy & _ & _ & _ & Heq & Hcx & Hcy & Hx & Hy).
    inversion Heq; subst. apply Hout. lia.
Qed.

(** A bitmap hanging over the bottom-right corner: the pixel beyond the
    right edge stays black, the corner pixel is lit. *)
Lemma blit_stays_inside_witness :
  paint (draw_bitmap 254 62 solid3) canvas_new 256 63 = Black /\
  paint (draw_bitmap 254 62 solid3) canvas_new 255 63 = Yellow.
Proof.
  split.
  - apply (proj1 (proj2 (proj2 (blit_stays_inside 254 62 solid3 0 256)))
             canvas_new 256 63).
    lia.
  - reflexivity.
Defined.

(** C10: the clipped blit checks rows against 22, not against the canvas
    height 64: it never writes a point with row index 22 or more, and
    placed at [y >= 22] it writes nothing. *)
Theorem clipped_blit_row_limit (x y : Z) (bmp : Bitmap) (cs cw : Z) :
  Forall (fun p => p.2 < 22) (draw_bitmap_clipped x y bmp cs cw) /\
  (22 <= y -> draw_bitmap_clipped x y bmp cs cw = []).
Proof.
  split.
  - apply Forall_forall. intros p Hp.
    apply elem_of_draw_bitmap_clipped in Hp
      as (px & py & _ & _ & _ & -> & _ & _ & _ & Hy).
    simpl. lia.
  - intros Hy. apply elem_of_nil_inv. intros p Hp.
    apply elem_of_draw_bitmap_clipped in Hp
      as (px & py & _ & Hpy & _ & _ & _ & _ & _ & Hrow).
    lia.
Qed.

Lemma clipped_blit_row_limit_witness :
  22 <= 30 /\ draw_bitmap_clipped 5 30 solid3 0 256 = [] /\
  length (draw_bitmap 5 30 solid3) = 9%nat.
Proof.
  assert (H : 22 <= 30) by lia.
  split; [exact H | split].
  - exact (proj2 (clipped_blit_row_limit 5 30 solid3 0 256) H).
  - reflexivity.
Defined.

(** ** Data refresh *)

(** C2 (as amended): a refresh that passes the operating-hours check and
    gets an answer from the data source leaves the animation in the initial
    state (1, 0, false, 0); a refresh that finds the board out of hours, or
    that fails, empties the departure list and leaves the animation state
    as it was.  So after every refresh the animation is in the initial
    state or there is no departure whose text could scroll. *)
Theorem refresh_resets_on_load (src : DataSource) (b : Board) :
  let gate := operating_hours_gate src (config b) in
  let answer :=
    loadDeparturesForStation src (journey (config b)) (apiKey (api (config b))) "10" in
  (gate = GateOpen -> answer <> None ->
     scroll (refresh_data src b) = scroll_init /\
     station_render_count (refresh_data src b) = 0) /\
  (gate <> GateOpen \/ answer = None ->
     departure_data (refresh_data src b) = Some [] /\
     scroll (refresh_data src b) = scroll b) /\
  (scroll (refresh_data src b) = scroll_init \/
   departure_data (refresh_data src b) = Some []).
Proof.
  cbv zeta. unfold refresh_data.
  destruct (operating_hours_gate src (config b)) eqn:Hg;
    destruct (loadDeparturesForStation src (journey (config b))
                (apiKey (api (config b))) "10") as [[[deps st] dest] |] eqn:Hl;
    simpl; repeat split; intros; try congruence; try tauto;
    try (right; reflexivity); try (left; reflexivity);
    match goal with H : _ \/ _ |- _ => destruct H; congruence end.
Qed.

Lemma refresh_resets_on_load_witness :
  scroll (refresh_data (sample_source true true) (sample_board "6-23")) = scroll_init /\
  scroll (refresh_data (sample_source true true) (sample_board "")) = scroll_init.
Proof.
  split.
  - apply (refresh_resets_on_load (sample_source true true) (sample_board "6-23"));
      [reflexivity | discriminate].
  - apply (refresh_resets_on_load (sample_source true true) (sample_board ""));
      [reflexivity | discriminate].
Defined.

(** C2 as stated fails: out of operating hours, on a malformed hours
    setting and on a failing data source the refresh returns with the old
    animation state, here (-50, 0, true, 0). *)
Lemma refresh_keeps_stale_scroll :
  scroll (refresh_data (sample_source false true) (sample_board "6-23"))
    = mkScroll (-50) 0 true 0 /\
  scroll (refresh_data (sample_source true true) (sample_board "six-23"))
    = mkScroll (-50) 0 true 0 /\
  scroll (refresh_data (sample_source true false) (sample_board "6-23"))
    = mkScroll (-50) 0 true 0 /\
  mkScroll (-50) 0 true 0 <> scroll_init.
Proof. repeat split. discriminate. Qed.

(** ** Status and platform texts *)

Lemma py_eqb_spec (a b : PyValue) : reflect (a = b) (py_eqb a b).
Proof.
  destruct a as [x |], b as [y |]; simpl; try (constructor; congruence).
  destruct (String.eqb_spec x y); constructor; congruence.
Qed.

(** C6: the status text is the sentinel itself when the expected time is
    "On time", "Cancelled" or "Delayed"; it is "Exp " followed by the
    expected time when that is a string, no sentinel, and differs from the
    aimed time; and it is "On time" in every remaining case: an expected
    time equal to the aimed time, or one that is not a string. *)
Theorem status_text_mapping (d : Departure) :
  let expected := expected_departure_time d in
  let aimed := aimed_departure_time d in
  (expected = PyStr "On time" -> get_status_text d = "On time") /\
  (expected = PyStr "Cancelled" -> get_status_text d = "Cancelled") /\
  (expected = PyStr "Delayed" -> get_status_text d = "Delayed") /\
  (forall e : string,
     expected = PyStr e -> expected <> aimed ->
     e <> "On time" -> e <> "Cancelled" -> e <> "Delayed" ->
     get_status_text d = "Exp " +:+ e) /\
  (expected <> PyStr "Cancelled" -> expected <> PyStr "Delayed" ->
   expected = aimed \/ py_is_str expected = false ->
   get_status_text d = "On time").
Proof.
  cbv zeta. unfold get_status_text.
  destruct (py_eqb_spec (expected_departure_time d) (PyStr "On time")) as [H1 | H1].
  { repeat split; intros; try reflexivity; congruence. }
  destruct (py_eqb_spec (expected_departure_time d) (PyStr "Cancelled")) as [H2 | H2].
  { repeat split; intros; try reflexivity; congruence. }
  destruct (py_eqb_spec (expected_departure_time d) (PyStr "Delayed")) as [H3 | H3].
  { repeat split; intros; try reflexivity; congruence. }
  destruct (py_eqb_spec (expected_departure_time d) (aimed_departure_time d))
    as [H4 | H4]; simpl.
  - rewrite andb_false_r.
    repeat split; intros; try reflexivity; congruence.
  - rewrite andb_true_r.
    repeat split; intros; try congruence.
    + match goal with H : expected_departure_time d = PyStr _ |- _ => rewrite H end.
      reflexivity.
    + match goal with H : _ \/ _ |- _ => destruct H as [He | He] end;
        [congruence | rewrite He; reflexivity].
Qed.

Lemma status_text_mapping_witness :
  get_status_text (mkDeparture (PyStr "10:32") (PyStr "10:45") "Reading" None "")
    = "Exp 10:45" /\
  get_status_text (mkDeparture (PyStr "10:32") (PyStr "10:32") "Reading" None "")
    = "On time" /\
  get_status_text (mkDeparture (PyStr "10:32") (PyStr "Cancelled") "Reading" None "")
    = "Cancelled".
Proof.
  split; [| split].
  - apply (status_text_mapping
             (mkDeparture (PyStr "10:32") (PyStr "10:45") "Reading" None ""));
      simpl; [reflexivity | discriminate..].
  - apply (status_text_mapping
             (mkDeparture (PyStr "10:32") (PyStr "10:32") "Reading" None ""));
      simpl; [discriminate | discriminate | left; reflexivity].
  - apply (status_text_mapping
             (mkDeparture (PyStr "10:32") (PyStr "Cancelled") "Reading" None ""));
      reflexivity.
Defined.

(** Lower-casing yields one of the letters of "bus" only from that letter
    or its capital. *)
Ltac by_cases_on_char c :=
  destruct c as [[] [] [] [] [] [] [] []]; vm_compute; intros H;
  solve [discriminate H | left; reflexivity | right; reflexivity].

Lemma lower_ascii_b (c : ascii) :
  lower_ascii c = "b"%char -> c = "b"%char \/ c = "B"%char.
Proof. by_cases_on_char c. Qed.

Lemma lower_ascii_u (c : ascii) :
  lower_ascii c = "u"%char -> c = "u"%char \/ c = "U"%char.
Proof. by_cases_on_char c. Qed.

Lemma lower_ascii_s (c : ascii) :
  lower_ascii c = "s"%char -> c = "s"%char \/ c = "S"%char.
Proof. by_cases_on_char c. Qed.

(** The strings that equal "bus" when case is ignored. *)
Lemma lower_bus (p : string) :
  lower p = "bus" <->
  p ∈ ["bus"; "buS"; "bUs"; "bUS"; "Bus"; "BuS"; "BUs"; "BUS"].
Proof.
  split.
  - destruct p as [| c1 [| c2 [| c3 [| c4 r]]]]; simpl; intros H; try discriminate H.
    injection H as H1 H2 H3.
    apply lower_ascii_b in H1. apply lower_ascii_u in H2. apply lower_ascii_s in H3.
    destruct H1, H2, H3; subst; set_solver.
  - intros H. repeat (apply elem_of_cons in H as [-> | H]; [reflexivity |]).
    inversion H.
Qed.

Lemma platform_text_cases (p : string) :
  (lower p = "bus" -> platform_text p = "BUS") /\
  (lower p <> "bus" -> platform_text p = "Plat " +:+ p).
Proof.
  unfold platform_text. destruct (String.eqb_spec (lower p) "bus"); split; intros;
    try reflexivity; contradiction.
Qed.

(** ** Row layout *)

(** C7: for a departure with a platform [p] the label is "BUS" when [p]
    equals "bus" up to case and "Plat " followed by [p] otherwise; its
    bitmap is the third blit of the row, on the row's line, at
    [x = 256 - w_status - w_plat - 5], so that it ends 5 pixels before the
    status text, which ends at the right edge.  A departure without a
    platform has no such blit: the row consists of the train text and the
    status text (and, for the first row, the calling-at line). *)
Theorem platform_label_layout (d : Departure) (y_pos : Z) (f : FreeTypeFont)
    (show_calling : bool) (b : Board) :
  let calls := (draw_departure_row d y_pos f show_calling b).2 in
  let looked_up := get_bitmap (train_text (config b) d y_pos) f (bitmap_cache b) in
  let status := get_bitmap (get_status_text d) (font (fonts b)) looked_up.2 in
  let w_status := status.1.1.1 in
  (forall p : string,
     platform d = Some p ->
     let label := if bool_decide (lower p = "bus") then "BUS" else "Plat " +:+ p in
     let plat := get_bitmap label (font (fonts b)) status.2 in
     let w_plat := plat.1.1.1 in
     let x_plat := 256 - w_status - w_plat - 5 in
     calls !! 1%nat = Some (Blit (256 - w_status) y_pos status.1.2) /\
     calls !! 2%nat = Some (Blit x_plat y_pos plat.1.2) /\
     x_plat + w_plat + 5 = 256 - w_status /\
     length calls = (if show_calling then 5 else 3)%nat) /\
  (platform d = None ->
     calls !! 1%nat = Some (Blit (256 - w_status) y_pos status.1.2) /\
     (forall x r, calls !! 2%nat = Some (Blit x y_pos r) -> False) /\
     length calls = (if show_calling then 4 else 2)%nat).
Proof.
  cbv zeta. unfold draw_departure_row, draw_scrolling_text.
  destruct (get_bitmap (train_text (config b) d y_pos) f (bitmap_cache b))
    as [[[w h] bmp] c1].
  cbn [fst snd].
  destruct (get_bitmap (get_status_text d) (font (fonts b)) c1)
    as [[[w_status h_status] status_bitmap] c2].
  cbn [fst snd].
  split.
  - intros p Hp. rewrite Hp.
    assert (Hlabel : platform_text p =
                     if bool_decide (lower p = "bus") then "BUS" else "Plat " +:+ p).
    { destruct (platform_text_cases p) as [Hbus Hplat].
      case_bool_decide; [apply Hbus | apply Hplat]; assumption. }
    rewrite <- Hlabel.
    destruct (get_bitmap (platform_text p) (font (fonts b)) c2)
      as [[[w_plat h_plat] plat_bitmap] c3].
    cbn [fst snd].
    destruct show_calling.
    + destruct (get_bitmap "Calling at: " (font (fonts b)) c3)
        as [[[w_call h_call] call_bitmap] c4].
      cbn [fonts set_cache bitmap_cache scroll].
      destruct (get_bitmap (calling_at_list d) (font (fonts b)) c4)
        as [[[w_s h_s] s_bitmap] c5].
      simpl. repeat split; lia.
    + simpl. repeat split; lia.
  - intros Hp. rewrite Hp.
    destruct show_calling.
    + destruct (get_bitmap "Calling at: " (font (fonts b)) c2)
        as [[[w_call h_call] call_bitmap] c4].
      cbn [fonts set_cache bitmap_cache scroll].
      destruct (get_bitmap (calling_at_list d) (font (fonts b)) c4)
        as [[[w_s h_s] s_bitmap] c5].
      simpl. repeat split. intros x r Heq. inversion Heq. lia.
    + simpl. repeat split. intros x r Heq. discriminate Heq.
Qed.

Lemma platform_label_layout_witness :
  (draw_departure_row (sample_departure (Some "4")) 24
     (font sample_fonts) false (sample_board "")).2 !! 2%nat
    = Some (Blit (256 - 42 - 36 - 5) 24 2%nat) /\
  (draw_departure_row (sample_departure (Some "bUs")) 24
     (font sample_fonts) false (sample_board "")).2 !! 2%nat
    = Some (Blit (256 - 42 - 18 - 5) 24 2%nat) /\
  length (draw_departure_row (sample_departure None) 24
     (font sample_fonts) false (sample_board "")).2 = 2%nat.
Proof.
  split; [| split].
  - exact (proj1 (proj2 (proj1 (platform_label_layout (sample_departure (Some "4")) 24
             (font sample_fonts) false (sample_board "")) "4" eq_refl))).
  - exact (proj1 (proj2 (proj1 (platform_label_layout (sample_departure (Some "bUs")) 24
             (font sample_fonts) false (sample_board "")) "bUs" eq_refl))).
  - exact (proj2 (proj2 (proj2 (platform_label_layout (sample_departure None) 24
             (font sample_fonts) false (sample_board "")) eq_refl))).
Defined.

(** C9: with no departure list, or an empty one, the board consists of
    exactly three blits and no departure row: "Welcome to" (bold) on line
    5, the station name, or the out-of-hours name when the station name is
    empty, (bold) on line 17, and "No trains scheduled" (regular) on line
    35, each at [x = (256 - w) / 2] for the width [w] that the cache
    returns for it; the animation state is not touched. *)
Theorem no_trains_placeholder (b : Board) :
  departure_data b = None \/ departure_data b = Some [] ->
  let station_text :=
    if truthy (station_name b) then station_name b
    else default "" (outOfHoursName (journey (config b))) in
  let r1 := get_bitmap "Welcome to" (font_bold (fonts b)) (bitmap_cache b) in
  let r2 := get_bitmap station_text (font_bold (fonts b)) r1.2 in
  let r3 := get_bitmap "No trains scheduled" (font (fonts b)) r2.2 in
  (draw_board b).2 =
    [Blit ((256 - r1.1.1.1) / 2) 5 r1.1.2;
     Blit ((256 - r2.1.1.1) / 2) 17 r2.1.2;
     Blit ((256 - r3.1.1.1) / 2) 35 r3.1.2] /\
  Forall (fun w => 0 <= (256 - w) - 2 * ((256 - w) / 2) <= 1)
         [r1.1.1.1; r2.1.1.1; r3.1.1.1] /\
  scroll (draw_board b).1 = scroll b /\
  departure_data (draw_board b).1 = departure_data b.
Proof.
  intros Hempty. cbv zeta.
  assert (Hboard : draw_board b = draw_no_trains b).
  { unfold draw_board. destruct Hempty as [-> | ->]; reflexivity. }
  rewrite Hboard. unfold draw_no_trains.
  destruct (get_bitmap "Welcome to" (font_bold (fonts b)) (bitmap_cache b))
    as [[[w1 h1] bmp1] c1].
  cbn [fst snd].
  destruct (get_bitmap _ (font_bold (fonts b)) c1) as [[[w2 h2] bmp2] c2].
  cbn [fst snd].
  destruct (get_bitmap "No trains scheduled" (font (fonts b)) c2)
    as [[[w3 h3] bmp3] c3].
  cbn [fst snd].
  split; [reflexivity | split; [| split; reflexivity]].
  repeat constructor;
    match goal with |- context [(256 - ?w) / 2] =>
      pose proof (Z.div_mod (256 - w) 2 ltac:(lia));
      pose proof (Z.mod_pos_bound (256 - w) 2 ltac:(lia)); lia
    end.
Qed.

Lemma no_trains_placeholder_witness :
  (draw_board (set_departure_data (Some []) (sample_board ""))).2 =
    [Blit 98 5 0%nat; Blit 77 17 1%nat; Blit 71 35 2%nat].
Proof.
  exact (proj1 (no_trains_placeholder
                  (set_departure_data (Some []) (sample_board ""))
                  (or_intror eq_refl))).
Defined.

(** ** Bitmap text cache *)

Section Cache.
Variables (text : string) (f : FreeTypeFont).

(** After a lookup the key is in the dictionary, with what was returned. *)
Lemma get_bitmap_cached (c : BitmapTextCache) :
  exists e, cache (get_bitmap text f c).2 !! cache_key text f = Some e /\
            (get_bitmap text f c).1 = (txt_width e, txt_height e, bitmap e).
Proof.
  unfold get_bitmap, cache_key. cbv zeta.
  destruct (cache c !! (text +:+ (getname f).1 +:+ (getname f).2)) as [e |] eqn:Hk.
  - exists e. split; [exact Hk | reflexivity].
  - destruct (getbbox f text) as [[[x0 y0] w] h]. simpl.
    eexists. rewrite lookup_insert_eq. split; reflexivity.
Qed.

(** A key that is present is answered from the dictionary, which stays
    as it is. *)
Lemma get_bitmap_hit (c : BitmapTextCache) (e : CacheEntry) :
  cache c !! cache_key text f = Some e ->
  get_bitmap text f c = ((txt_width e, txt_height e, bitmap e), c).
Proof.
  unfold get_bitmap, cache_key. cbv zeta. intros ->. reflexivity.
Qed.

(** Entries are never replaced. *)
Lemma get_bitmap_keeps_entries (c : BitmapTextCache) (k : string) (e : CacheEntry) :
  cache c !! k = Some e -> cache (get_bitmap text f c).2 !! k = Some e.
Proof.
  intros Hk. unfold get_bitmap. cbv zeta.
  destruct (cache c !! (text +:+ (getname f).1 +:+ (getname f).2)) as [e' |] eqn:Hkey.
  - exact Hk.
  - destruct (getbbox f text) as [[[x0 y0] w] h]. simpl.
    rewrite lookup_insert_ne; [exact Hk | congruence].
Qed.

(** Images are never overwritten: the store only grows at its end. *)
Lemma get_bitmap_keeps_images (c : BitmapTextCache) (i : nat) (bmp : Bitmap) :
  images c !! i = Some bmp -> images (get_bitmap text f c).2 !! i = Some bmp.
Proof.
  intros Hi. unfold get_bitmap. cbv zeta.
  destruct (cache c !! (text +:+ (getname f).1 +:+ (getname f).2)) as [e' |].
  - exact Hi.
  - destruct (getbbox f text) as [[[x0 y0] w] h]. simpl.
    apply lookup_app_l_Some. exact Hi.
Qed.

Lemma get_bitmap_wf (c : BitmapTextCache) :
  cache_wf c -> cache_wf (get_bitmap text f c).2.
Proof.
  intros Hwf. unfold get_bitmap. cbv zeta.
  destruct (cache c !! (text +:+ (getname f).1 +:+ (getname f).2)) as [e' |] eqn:Hkey.
  - exact Hwf.
  - destruct (getbbox f text) as [[[x0 y0] w] h]. simpl.
    intros k e. simpl. rewrite lookup_insert.
    case_decide as Hk.
    + intros [= <-]. simpl. eexists. split.
      * rewrite lookup_app_r by lia. rewrite Nat.sub_diag. reflexivity.
      * split; reflexivity.
    + intros He. destruct (Hwf k e He) as (bmp & Hb & Hw & Hh).
      exists bmp. split; [| split; assumption].
      apply lookup_app_l_Some. exact Hb.
Qed.

End Cache.

Lemma cache_empty_wf : cache_wf cache_empty.
Proof. intros k e Hk. simpl in Hk. rewrite lookup_empty in Hk. discriminate. Qed.

Lemma get_bitmaps_wf (reqs : list (string * FreeTypeFont)) : forall c,
  cache_wf c -> cache_wf (get_bitmaps reqs c).
Proof.
  induction reqs as [| [t f] reqs IH]; intros c Hwf; simpl; [exact Hwf |].
  apply IH. apply get_bitmap_wf. exact Hwf.
Qed.

Lemma get_bitmaps_keeps_entries (reqs : list (string * FreeTypeFont)) :
  forall c k e, cache c !! k = Some e -> cache (get_bitmaps reqs c) !! k = Some e.
Proof.
  induction reqs as [| [t f] reqs IH]; intros c k e Hk; simpl; [exact Hk |].
  apply IH. apply get_bitmap_keeps_entries. exact Hk.
Qed.

Lemma get_bitmaps_keeps_images (reqs : list (string * FreeTypeFont)) :
  forall c i bmp, images c !! i = Some bmp -> images (get_bitmaps reqs c) !! i = Some bmp.
Proof.
  induction reqs as [| [t f] reqs IH]; intros c i bmp Hi; simpl; [exact Hi |].
  apply IH. apply get_bitmap_keeps_images. exact Hi.
Qed.

Lemma cache_extends_refl (c : BitmapTextCache) : cache_extends c c.
Proof. split; intros; assumption. Qed.

Lemma cache_extends_trans (c1 c2 c3 : BitmapTextCache) :
  cache_extends c1 c2 -> cache_extends c2 c3 -> cache_extends c1 c3.
Proof. intros [Hk1 Hi1] [Hk2 Hi2]. split; intros; auto. Qed.

Lemma get_bitmap_extends (text : string) (f : FreeTypeFont) (c : BitmapTextCache) :
  cache_extends c (get_bitmap text f c).2.
Proof.
  split; intros.
  - apply get_bitmap_keeps_entries; assumption.
  - apply get_bitmap_keeps_images; assumption.
Qed.

(** ** Rendering only adds to the cache *)

(** Name the result of the next lookup in the goal and record that the
    cache after it extends the cache before it. *)
Ltac next_lookup :=
  match goal with
  | |- context [get_bitmap ?t ?f ?c] =>
      let H := fresh "Hext" in
      pose proof (get_bitmap_extends t f c) as H;
      destruct (get_bitmap t f c) as [[[? ?] ?] ?]; cbn [fst snd] in H |- *
  end.

Ltac chain_extends :=
  cbn [bitmap_cache set_cache set_scroll fst snd] in *;
  repeat first
    [ assumption
    | apply cache_extends_refl
    | match goal with
      | H : cache_extends ?a ?m |- cache_extends ?a ?z =>
          apply (cache_extends_trans a m z H); clear H
      end ].

Lemma draw_scrolling_text_extends (text : string) (x_offset y_pos max_width : Z)
    (b : Board) :
  cache_extends (bitmap_cache b)
    (bitmap_cache (draw_scrolling_text text x_offset y_pos max_width b).1).
Proof.
  unfold draw_scrolling_text. next_lookup. chain_extends.
Qed.

Lemma draw_departure_row_extends (d : Departure) (y_pos : Z) (f : FreeTypeFont)
    (show_calling : bool) (b : Board) :
  cache_extends (bitmap_cache b)
    (bitmap_cache (draw_departure_row d y_pos f show_calling b).1).
Proof.
  unfold draw_departure_row. do 2 next_lookup.
  destruct (platform d) as [p |]; [next_lookup |];
    (destruct show_calling;
     [ next_lookup;
       match goal with
       | |- context [draw_scrolling_text ?t ?x ?y ?m ?b0] =>
           pose proof (draw_scrolling_text_extends t x y m b0) as Hscroll;
           destruct (draw_scrolling_text t x y m b0) as [b' calls']
       end
     | ]);
    chain_extends.
Qed.

Lemma draw_departures_extends (b : Board) :
  cache_extends (bitmap_cache b) (bitmap_cache (draw_departures b).1).
Proof.
  unfold draw_departures.
  destruct (default [] (departure_data b)) as [| d0 [| d1 [| d2 rest]]];
    [apply cache_extends_refl | ..];
    repeat match goal with
    | |- context [draw_departure_row ?d ?y ?f ?sc ?b0] =>
        let H := fresh "Hrow" in
        pose proof (draw_departure_row_extends d y f sc b0) as H;
        destruct (draw_departure_row d y f sc b0) as [? ?]
    end;
    chain_extends.
Qed.

Lemma draw_no_trains_extends (b : Board) :
  cache_extends (bitmap_cache b) (bitmap_cache (draw_no_trains b).1).
Proof.
  unfold draw_no_trains. cbv zeta. do 3 next_lookup. chain_extends.
Qed.

Lemma draw_time_extends (now : string * string * string) (b : Board) :
  cache_extends (bitmap_cache b) (bitmap_cache (draw_time now b).1).
Proof.
  unfold draw_time. destruct now as [[hour minute] second]. cbv zeta.
  do 2 next_lookup. chain_extends.
Qed.

Lemma refresh_data_cache (src : DataSource) (b : Board) :
  bitmap_cache (refresh_data src b) = bitmap_cache b.
Proof.
  unfold refresh_data.
  destruct (operating_hours_gate src (config b)); try reflexivity.
  destruct (loadDeparturesForStation src _ _ _) as [[[deps st] dest] |]; reflexivity.
Qed.

Lemma render_frame_extends (src : DataSource) (refresh_due : bool)
    (now : string * string * string) (b : Board) :
  cache_extends (bitmap_cache b) (bitmap_cache (render_frame src refresh_due now b).1).
Proof.
  unfold render_frame.
  set (b0 := if refresh_due then refresh_data src b else b).
  assert (H0 : bitmap_cache b0 = bitmap_cache b).
  { unfold b0. destruct refresh_due; [apply refresh_data_cache | reflexivity]. }
  rewrite <- H0.
  assert (H1 : cache_extends (bitmap_cache b0) (bitmap_cache (draw_board b0).1)).
  { unfold draw_board. destruct (departure_data b0) as [[| d ds] |];
      auto using draw_no_trains_extends, draw_departures_extends. }
  destruct (draw_board b0) as [b1 calls1].
  pose proof (draw_time_extends now b1) as H2.
  destruct (draw_time now b1) as [b2 calls2].
  chain_extends.
Qed.

(** C8: on a cache that has served any lookups since its creation, two
    lookups of the same text in the same font, with any lookups in between,
    return the same width, the same height and the same image object; that
    object is in the store with the size returned, it is the same image,
    unchanged, after the second lookup, and rendering a frame (with or
    without a data refresh) leaves it unchanged as well. *)
Theorem cache_lookup_shared (before between : list (string * FreeTypeFont))
    (text : string) (f : FreeTypeFont) :
  let c0 := get_bitmaps before cache_empty in
  let first := get_bitmap text f c0 in
  let second := get_bitmap text f (get_bitmaps between first.2) in
  second.1 = first.1 /\
  (exists bmp : Bitmap,
     images first.2 !! first.1.2 = Some bmp /\
     images second.2 !! second.1.2 = Some bmp /\
     bmp_width bmp = first.1.1.1 /\ bmp_height bmp = first.1.1.2 /\
     (forall (src : DataSource) (refresh_due : bool)
             (now : string * string * string) (b : Board),
        images (bitmap_cache (render_frame src refresh_due now (set_cache second.2 b)).1)
          !! first.1.2 = Some bmp)).
Proof.
  cbv zeta.
  set (c0 := get_bitmaps before cache_empty).
  assert (Hwf0 : cache_wf c0) by (apply get_bitmaps_wf, cache_empty_wf).
  destruct (get_bitmap_cached text f c0) as (e & Hkey & Hres).
  pose proof (get_bitmap_wf text f c0 Hwf0) as Hwf1.
  set (c1 := (get_bitmap text f c0).2) in *.
  pose proof (get_bitmaps_keeps_entries between c1 _ e Hkey) as Hkey2.
  rewrite (get_bitmap_hit text f _ e Hkey2). cbn [fst snd].
  rewrite Hres. cbn [fst snd].
  split; [reflexivity |].
  destruct (Hwf1 _ e Hkey) as (bmp & Hb & Hw & Hh).
  pose proof (get_bitmaps_keeps_images between c1 _ bmp Hb) as Hb2.
  exists bmp. repeat split; try assumption.
  intros src due now b.
  apply (render_frame_extends src due now (set_cache (get_bitmaps between c1) b)).
  exact Hb2.
Qed.


(** ** Splitting and joining *)

Lemma split_cons (sep : ascii) (s : string) : exists x r, split sep s = x :: r.
Proof.
  induction s as [| c s IH]; simpl; [eauto |].
  destruct (Ascii.eqb c sep); [eauto |].
  destruct IH as (x & r & ->). eauto.
Qed.

Lemma split_length (sep : ascii) (s : string) :
  length (split sep s) = S (count_char sep s).
Proof.
  induction s as [| c s IH]; simpl; [reflexivity |].
  destruct (Ascii.eqb c sep); simpl.
  - rewrite IH. reflexivity.
  - destruct (split_cons sep s) as (x & r & Hs). rewrite Hs in *. exact IH.
Qed.

(** Splitting at a character and joining with it again gives the
    string back; the number of pieces is one more than the number of
    separators (so never zero), and no piece contains the separator. *)
Theorem split_join_roundtrip (sep : ascii) (s : string) :
  join (String sep EmptyString) (split sep s) = s /\
  length (split sep s) = S (count_char sep s) /\
  Forall (fun piece => count_char sep piece = O) (split sep s).
Proof.
  split; [| split; [apply split_length |]].
  - induction s as [| c s IH]; simpl; [reflexivity |].
    destruct (Ascii.eqb_spec c sep) as [-> | Hne].
    + destruct (split_cons sep s) as (x & r & Hs). rewrite Hs in *.
      change (join (String sep EmptyString) (EmptyString :: x :: r))
        with (EmptyString +:+ String sep EmptyString
                +:+ join (String sep EmptyString) (x :: r)).
      rewrite IH. reflexivity.
    + destruct (split_cons sep s) as (x & r & Hs). rewrite Hs in *.
      destruct r as [| y r].
      * simpl in *. rewrite IH. reflexivity.
      * change (join (String sep EmptyString) (String c x :: y :: r))
          with (String c (x +:+ String sep EmptyString
                            +:+ join (String sep EmptyString) (y :: r))).
        change (join (String sep EmptyString) (x :: y :: r))
          with (x +:+ String sep EmptyString
                  +:+ join (String sep EmptyString) (y :: r)) in IH.
        rewrite IH. reflexivity.
  - induction s as [| c s IH]; simpl; [repeat constructor |].
    destruct (Ascii.eqb_spec c sep) as [-> | Hne].
    + constructor; [reflexivity | exact IH].
    + destruct (split_cons sep s) as (x & r & Hs). rewrite Hs in *.
      inversion IH as [| ? ? Hx Hr]; subst. constructor; [| exact Hr].
      simpl. destruct (Ascii.eqb_spec c sep); [contradiction | exact Hx].
Qed.

(** ** The operating-hours check *)

(** X1: an operating-hours setting that is empty, or that does not contain
    exactly one dash, switches the check off: the refresh goes on to load
    the data without asking [isRun], whatever the time of day.  With
    exactly one dash the outcome is that of [int] on the two sides and of
    [isRun]. *)
Theorem hours_gate_shape (src : DataSource) (cfg : Config) :
  let hours := operatingHours (api cfg) in
  (count_char "-" hours <> 1%nat -> operating_hours_gate src cfg = GateOpen) /\
  (count_char "-" hours = 1%nat ->
   exists h0 h1 : string,
     hours = h0 +:+ "-" +:+ h1 /\
     operating_hours_gate src cfg =
       match py_int src h0, py_int src h1 with
       | Some a, Some z => if isRun src a z then GateOpen else GateClosed
       | _, _ => GateError
       end).
Proof.
  cbv zeta. unfold operating_hours_gate.
  pose proof (split_join_roundtrip "-" (operatingHours (api cfg))) as (Hjoin & Hlen & _).
  split.
  - intros Hcount. destruct (truthy (operatingHours (api cfg))); [| reflexivity].
    destruct (split "-" (operatingHours (api cfg))) as [| h0 [| h1 [| h2 r]]];
      simpl in Hlen; try reflexivity.
    exfalso. apply Hcount. lia.
  - intros Hcount. rewrite Hcount in Hlen.
    destruct (split "-" (operatingHours (api cfg))) as [| h0 [| h1 [| h2 r]]];
      simpl in Hlen; try discriminate Hlen.
    exists h0, h1. simpl in Hjoin. split; [symmetry; exact Hjoin |].
    destruct (truthy (operatingHours (api cfg))) eqn:Ht.
    + destruct (py_int src h0); [| reflexivity].
      destruct (py_int src h1); reflexivity.
    + destruct (operatingHours (api cfg)); [| discriminate Ht].
      destruct h0; discriminate Hjoin.
Qed.

Lemma hours_gate_shape_witness :
  operating_hours_gate (sample_source false true) (sample_config "6-12-18") = GateOpen /\
  operating_hours_gate (sample_source false true) (sample_config "0600") = GateOpen /\
  exists h0 h1 : string,
    "6-23" = h0 +:+ "-" +:+ h1 /\
    operating_hours_gate (sample_source false true) (sample_config "6-23") =
      match sample_int h0, sample_int h1 with
      | Some a, Some z => GateClosed
      | _, _ => GateError
      end.
Proof.
  split; [| split].
  - apply (proj1 (hours_gate_shape (sample_source false true) (sample_config "6-12-18"))).
    simpl. lia.
  - apply (proj1 (hours_gate_shape (sample_source false true) (sample_config "0600"))).
    simpl. lia.
  - apply (proj2 (hours_gate_shape (sample_source false true) (sample_config "6-23"))).
    reflexivity.
Defined.

(** ** Animator: the range of all counters *)

Lemma scroll_advance_in_range (w h : Z) (s : ScrollState) :
  0 <= w -> 0 <= h ->
  scroll_in_range w h s -> scroll_in_range w h (scroll_advance w h s).
Proof.
  intros Hw Hh. unfold scroll_in_range, scroll_advance.
  destruct (has_elevated s).
  - intros [Hup Hcases].
    destruct (Z.ltb_spec w (- pixels_left s));
      destruct (Z.ltb_spec (pause_count s) 8); simpl; lia.
  - intros (Hleft & Hup & Hpause).
    destruct (Z.eqb_spec (pixels_up s) h); [| simpl; lia].
    cbv zeta. destruct (Z.ltb_spec 100 (pause_count s + 1)); simpl; lia.
Qed.

Lemma scroll_frames_in_range (w h : Z) (n : nat) :
  0 <= w -> 0 <= h -> scroll_in_range w h (scroll_frames w h n scroll_init).
Proof.
  intros Hw Hh. induction n as [| n IH].
  - unfold scroll_in_range. simpl. lia.
  - rewrite scroll_frames_last. apply scroll_advance_in_range; assumption.
Qed.

(** X2: for a text of width [w >= 0] and height [h >= 0], after any number
    of frames from the initial state [pixels_left] lies in
    [[-(w + 1), 1]] and [pause_count] in [[0, 101]]; in the scroll phase
    [pixels_up] is 0.  Whenever the text has left the viewport the pause
    counter is 0, so the test [pause_count < 8] never fails there: the
    scroll phase ends on the first frame after the text has left, at
    [pixels_left = -(w + 1)], without a pause. *)
Theorem scroll_counters_range (w h : Z) (n : nat) :
  0 <= w -> 0 <= h ->
  let s := scroll_frames w h n scroll_init in
  - (w + 1) <= pixels_left s <= 1 /\
  0 <= pause_count s <= 101 /\
  (has_elevated s = true -> pixels_up s = 0) /\
  (has_elevated s = true -> w < - pixels_left s ->
     pause_count s = 0 /\ pixels_left s = - (w + 1) /\
     scroll_advance w h s = scroll_restart).
Proof.
  intros Hw Hh. cbv zeta.
  pose proof (scroll_frames_in_range w h n Hw Hh) as Hr.
  set (s := scroll_frames w h n scroll_init) in *.
  unfold scroll_in_range in Hr.
  destruct (has_elevated s) eqn:He.
  - destruct Hr as [Hup Hcases].
    split; [lia | split; [lia | split; [intros _; exact Hup |]]].
    intros _ Hout.
    assert (Hp : pause_count s = 0) by lia.
    assert (Hl : pixels_left s = - (w + 1)) by lia.
    split; [exact Hp | split; [exact Hl |]].
    rewrite advance_scroll_exit by (assumption || lia).
    unfold scroll_restart. f_equal; lia.
  - split; [lia | split; [lia | split; intros; discriminate]].
Qed.

Lemma scroll_counters_range_witness :
  0 <= 30 /\ 0 <= 8 /\
  - (30 + 1) <= pixels_left (scroll_frames 30 8 141 scroll_init) <= 1 /\
  pixels_left (scroll_frames 30 8 141 scroll_init) = -31.
Proof.
  assert (Hw : 0 <= 30) by lia. assert (Hh : 0 <= 8) by lia.
  split; [exact Hw | split; [exact Hh | split]].
  - exact (proj1 (scroll_counters_range 30 8 141 Hw Hh)).
  - reflexivity.
Defined.

(** ** Data refresh: what is loaded *)

(** X3: a refresh that loads data takes over the station name; with no
    platform configured it takes the departures as they come (also when
    the source delivers no list at all); with a platform configured it
    keeps exactly the departures of that platform, in their order, and
    drops those without a platform. *)
Theorem refresh_platform_filter (src : DataSource) (b : Board)
    (departures : option (list Departure)) (station dest_station : string) :
  operating_hours_gate src (config b) = GateOpen ->
  loadDeparturesForStation src (journey (config b)) (apiKey (api (config b))) "10"
    = Some (departures, station, dest_station) ->
  let b' := refresh_data src b in
  let plat := screen1Platform (journey (config b)) in
  station_name b' = station /\
  (plat = EmptyString -> departure_data b' = departures) /\
  (plat <> EmptyString ->
   exists kept : list Departure,
     departure_data b' = Some kept /\
     Forall (fun d => platform d = Some plat) kept /\
     sublist kept (default [] departures) /\
     (forall d, d ∈ default [] departures -> platform d = Some plat -> d ∈ kept)).
Proof.
  intros Hgate Hload. cbv zeta. unfold refresh_data. rewrite Hgate, Hload.
  cbn [station_name departure_data]. split; [reflexivity | split].
  - intros ->. reflexivity.
  - intros Hplat.
    destruct (screen1Platform (journey (config b))) as [| c p] eqn:Hp;
      [contradiction |].
    cbn [truthy]. eexists. split; [reflexivity | split; [| split]].
    + apply Forall_forall. intros d Hd. apply list_elem_of_filter in Hd. tauto.
    + apply sublist_filter.
    + intros d Hd Hpd. apply list_elem_of_filter. split; assumption.
Qed.

Lemma refresh_platform_filter_witness :
  station_name (refresh_data (sample_source true true) (sample_board "6-23"))
    = "London Paddington" /\
  departure_data (refresh_data (sample_source true true) (sample_board "6-23"))
    = Some [sample_departure (Some "4")].
Proof.
  pose proof (refresh_platform_filter (sample_source true true) (sample_board "6-23")
                (Some [sample_departure (Some "4")]) "London Paddington" ""
                eq_refl eq_refl) as (Hst & Hall & _).
  split; [exact Hst | exact (Hall eq_refl)].
Defined.


(** ** Bitmap text cache: keys and size *)

(** X4: the answer of a lookup depends on the key only.  When two
    text/font pairs have the same key (the same text in two fonts with the
    same name tuple, such as one font file in two sizes, or texts and names
    that concatenate to the same string), the later lookup returns the
    width, height and image of the earlier one, whatever its own font would
    measure, and adds nothing to the cache. *)
Theorem cache_key_collision (c : BitmapTextCache) (between : list (string * FreeTypeFont))
    (t1 t2 : string) (f1 f2 : FreeTypeFont) :
  cache_key t1 f1 = cache_key t2 f2 ->
  let first := get_bitmap t1 f1 c in
  let c' := get_bitmaps between first.2 in
  (get_bitmap t2 f2 c').1 = first.1 /\ (get_bitmap t2 f2 c').2 = c'.
Proof.
  intros Hkey. cbv zeta.
  destruct (get_bitmap_cached t1 f1 c) as (e & He & Hres).
  pose proof (get_bitmaps_keeps_entries between _ _ e He) as He'.
  rewrite Hkey in He'.
  rewrite (get_bitmap_hit t2 f2 _ e He'). cbn [fst snd].
  split; [symmetry; exact Hres | reflexivity].
Qed.

Lemma cache_key_collision_witness :
  (get_bitmap "10:05" (large_block_font "Dot Matrix" "Bold")
     (get_bitmap "10:05" (block_font "Dot Matrix" "Bold") cache_empty).2).1
    = (30, 10, 0%nat) /\
  (get_bitmap "10:05" (large_block_font "Dot Matrix" "Bold") cache_empty).1
    = (60, 20, 0%nat).
Proof.
  split.
  - exact (proj1 (cache_key_collision cache_empty [] "10:05" "10:05"
                    (block_font "Dot Matrix" "Bold")
                    (large_block_font "Dot Matrix" "Bold") eq_refl)).
  - reflexivity.
Defined.

Lemma get_bitmap_dom (text : string) (f : FreeTypeFont) (c : BitmapTextCache) :
  dom (cache (get_bitmap text f c).2) = dom (cache c) ∪ {[cache_key text f]}.
Proof.
  unfold get_bitmap, cache_key. cbv zeta.
  destruct (cache c !! (text +:+ (getname f).1 +:+ (getname f).2)) as [e |] eqn:Hk.
  - simpl. apply elem_of_dom_2 in Hk. set_solver.
  - destruct (getbbox f text) as [[[x0 y0] w] h]. simpl.
    rewrite dom_insert_L. set_solver.
Qed.

Lemma get_bitmap_size (text : string) (f : FreeTypeFont) (c : BitmapTextCache) :
  length (images c) = size (cache c) ->
  length (images (get_bitmap text f c).2) = size (cache (get_bitmap text f c).2).
Proof.
  intros Hsize. unfold get_bitmap. cbv zeta.
  destruct (cache c !! (text +:+ (getname f).1 +:+ (getname f).2)) as [e |] eqn:Hk.
  - exact Hsize.
  - destruct (getbbox f text) as [[[x0 y0] w] h]. simpl.
    rewrite length_app, map_size_insert_None by exact Hk. simpl. lia.
Qed.

(** X5: a cache that has served the lookups [reqs] since its creation
    holds exactly the keys of [reqs] and one image per key: a repeated
    lookup allocates nothing, and nothing is ever evicted. *)
Theorem cache_one_image_per_key (reqs : list (string * FreeTypeFont)) :
  let c := get_bitmaps reqs cache_empty in
  dom (cache c) = list_to_set ((fun r => cache_key r.1 r.2) <$> reqs) /\
  length (images c) = size (cache c) /\
  (length (images c) <= length reqs)%nat.
Proof.
  cbv zeta.
  assert (Hgen : forall c0,
            length (images c0) = size (cache c0) ->
            dom (cache (get_bitmaps reqs c0)) =
              dom (cache c0) ∪ list_to_set ((fun r => cache_key r.1 r.2) <$> reqs) /\
            length (images (get_bitmaps reqs c0)) = size (cache (get_bitmaps reqs c0)) /\
            (length (images (get_bitmaps reqs c0)) <= length (images c0) + length reqs)%nat).
  { induction reqs as [| [t f] reqs IH]; intros c0 Hsize; simpl.
    - split; [set_solver | split; [exact Hsize | lia]].
    - destruct (IH _ (get_bitmap_size t f c0 Hsize)) as (Hdom & Hsz & Hle).
      split; [| split; [exact Hsz |]].
      + rewrite Hdom, get_bitmap_dom. set_solver.
      + etransitivity; [exact Hle |].
        assert (length (images (get_bitmap t f c0).2) <= S (length (images c0)))%nat.
        { unfold get_bitmap. cbv zeta.
          destruct (cache c0 !! _); [simpl; lia |].
          destruct (getbbox f t) as [[[x0 y0] w] h]. simpl.
          rewrite length_app. simpl. lia. }
        lia. }
  destruct (Hgen cache_empty) as (Hdom & Hsz & Hle).
  { simpl. rewrite map_size_empty. reflexivity. }
  split; [| split; [exact Hsz | exact Hle]].
  rewrite Hdom. simpl. rewrite dom_empty_L. set_solver.
Qed.


(** ** Blit primitives: what exactly is written *)

Lemma NoDup_range (n : Z) : NoDup (range n).
Proof.
  unfold range. apply NoDup_fmap_2; [| apply NoDup_seq].
  intros a b Hab. lia.
Qed.

(** Both primitives visit every bitmap pixel once and write at most the
    point that belongs to it. *)
Lemma NoDup_cells (x y w h : Z) (cell : Z -> Z -> list (Z * Z)) :
  (forall px py p, p ∈ cell px py -> p = (x + px, y + py)) ->
  (forall px py, NoDup (cell px py)) ->
  NoDup (py ← range h; px ← range w; cell px py).
Proof.
  intros Hcell Hnd. apply NoDup_bind; [| | apply NoDup_range].
  - intros py1 py2 p _ _ H1 H2.
    apply list_elem_of_bind in H1 as (px1 & H1 & _).
    apply list_elem_of_bind in H2 as (px2 & H2 & _).
    apply Hcell in H1. apply Hcell in H2. subst p. inversion H2. lia.
  - intros py _. apply NoDup_bind; [| | apply NoDup_range].
    + intros px1 px2 p _ _ H1 H2.
      apply Hcell in H1. apply Hcell in H2. subst p. inversion H2. lia.
    + intros px _. apply Hnd.
Qed.

(** X6: the unclipped blit writes a screen pixel [(sx, sy)] exactly when
    the bitmap has a pixel at [(sx - x, sy - y)], that pixel is lit, and
    [(sx, sy)] is on the 256 x 64 canvas; it writes each such pixel once. *)
Theorem blit_writes_exactly (x y : Z) (bmp : Bitmap) :
  NoDup (draw_bitmap x y bmp) /\
  (forall sx sy : Z,
     (sx, sy) ∈ draw_bitmap x y bmp <->
     (0 <= sx - x < bmp_width bmp /\ 0 <= sy - y < bmp_height bmp /\
      0 < bmp_pixel bmp (sx - x) (sy - y)) /\
     (0 <= sx < 256 /\ 0 <= sy < 64)).
Proof.
  split.
  - unfold draw_bitmap. apply (NoDup_cells x y).
    + intros px py p Hp.
      destruct (0 <? bmp_pixel bmp px py); [| inversion Hp].
      destruct ((0 <=? x + px) && (x + px <? 256) && (0 <=? y + py) && (y + py <? 64));
        [| inversion Hp].
      apply list_elem_of_singleton in Hp. exact Hp.
    + intros px py.
      destruct (0 <? bmp_pixel bmp px py); [| constructor].
      destruct ((0 <=? x + px) && (x + px <? 256) && (0 <=? y + py) && (y + py <? 64));
        [apply NoDup_singleton | constructor].
  - intros sx sy. rewrite elem_of_draw_bitmap. split.
    + intros (px & py & Hpx & Hpy & Hlit & Heq & Hx & Hy).
      inversion Heq; subst.
      replace (x + px - x) with px by lia. replace (y + py - y) with py by lia.
      repeat split; (lia || assumption).
    + intros ((Hpx & Hpy & Hlit) & Hx & Hy).
      exists (sx - x), (sy - y).
      replace (x + (sx - x)) with sx by lia. replace (y + (sy - y)) with sy by lia.
      repeat split; (lia || assumption).
Qed.

(** X7: the clipped blit writes each of its points once, and it writes
    exactly those points of the unclipped blit at the same place that lie
    in the clip columns [[cs, cs + cw)], in the first 10 rows from [y],
    and above row 22. *)
Theorem clipped_blit_is_filtered_blit (x y : Z) (bmp : Bitmap) (cs cw : Z) :
  NoDup (draw_bitmap_clipped x y bmp cs cw) /\
  (forall sx sy : Z,
     (sx, sy) ∈ draw_bitmap_clipped x y bmp cs cw <->
     (sx, sy) ∈ draw_bitmap x y bmp /\
     cs <= sx < cs + cw /\ sy < y + 10 /\ sy < 22).
Proof.
  split.
  - unfold draw_bitmap_clipped. cbv zeta. apply (NoDup_cells x y).
    + intros px py p Hp.
      destruct (0 <? bmp_pixel bmp px py); [| inversion Hp].
      match type of Hp with _ ∈ (if ?c then _ else _) => destruct c end;
        [| inversion Hp].
      apply list_elem_of_singleton in Hp. exact Hp.
    + intros px py.
      destruct (0 <? bmp_pixel bmp px py); [| constructor].
      match goal with |- NoDup (if ?c then _ else _) => destruct c end;
        [apply NoDup_singleton | constructor].
  - intros sx sy. rewrite elem_of_draw_bitmap_clipped, elem_of_draw_bitmap. split.
    + intros (px & py & Hpx & Hpy & Hlit & Heq & Hcx & Hcy & Hx & Hy).
      inversion Heq; subst. split; [| lia].
      exists px, py. repeat split; (lia || assumption).
    + intros ((px & py & Hpx & Hpy & Hlit & Heq & Hx & Hy) & Hcx & Hband & Hrow).
      inversion Heq; subst.
      exists px, py. repeat split; (lia || assumption).
Qed.

(** X8: a bitmap without area, or one placed entirely off the canvas, is
    a no-op for both blits; so is a clipped blit with an empty clip
    window.  None of these is an error. *)
Theorem blit_nothing_to_draw (x y : Z) (bmp : Bitmap) (cs cw : Z) :
  (bmp_width bmp <= 0 \/ bmp_height bmp <= 0 \/
   256 <= x \/ x + bmp_width bmp <= 0 \/ 64 <= y \/ y + bmp_height bmp <= 0 ->
   draw_bitmap x y bmp = [] /\ draw_bitmap_clipped x y bmp cs cw = []) /\
  (cw <= 0 -> draw_bitmap_clipped x y bmp cs cw = []).
Proof.
  split.
  - intros Hout. split; apply elem_of_nil_inv; intros p Hp.
    + apply elem_of_draw_bitmap in Hp as (px & py & Hpx & Hpy & _ & _ & Hx & Hy). lia.
    + apply elem_of_draw_bitmap_clipped in Hp
        as (px & py & Hpx & Hpy & _ & _ & _ & _ & Hx & Hy). lia.
  - intros Hcw. apply elem_of_nil_inv; intros p Hp.
    apply elem_of_draw_bitmap_clipped in Hp
      as (px & py & _ & _ & _ & _ & Hcx & _). lia.
Qed.

Lemma blit_nothing_to_draw_witness :
  draw_bitmap 256 0 solid3 = [] /\ draw_bitmap (-3) 0 solid3 = [] /\
  draw_bitmap_clipped 5 12 solid3 5 0 = [].
Proof.
  split; [| split].
  - apply (proj1 (blit_nothing_to_draw 256 0 solid3 0 0)). simpl. lia.
  - apply (proj1 (blit_nothing_to_draw (-3) 0 solid3 0 0)). simpl. lia.
  - apply (proj2 (blit_nothing_to_draw 5 12 solid3 5 0)). lia.
Defined.

(** ** The canvas *)

Lemma paint_cons (p : Z * Z) (pts : list (Z * Z)) (cv : Canvas) :
  paint (p :: pts) cv = paint pts (point p cv).
Proof. reflexivity. Qed.

Lemma paint_keeps_yellow (pts : list (Z * Z)) : forall (cv : Canvas) (x y : Z),
  cv x y = Yellow -> paint pts cv x y = Yellow.
Proof.
  induction pts as [| p pts IH]; intros cv x y Hy; [exact Hy |].
  rewrite paint_cons. apply IH. unfold point.
  destruct ((x =? p.1) && (y =? p.2)); [reflexivity | exact Hy].
Qed.

(** After painting a list of points a pixel is yellow exactly when it
    is one of the points or was yellow before: drawing only ever lights
    pixels, and the result does not depend on the order of the points. *)
Theorem paint_yellow_iff (pts : list (Z * Z)) (cv : Canvas) (x y : Z) :
  (paint pts cv x y = Yellow <-> (x, y) ∈ pts \/ cv x y = Yellow) /\
  (forall pts' : list (Z * Z), pts ≡ₚ pts' -> paint pts' cv x y = paint pts cv x y).
Proof.
  assert (Hiff : forall l, paint l cv x y = Yellow <-> (x, y) ∈ l \/ cv x y = Yellow).
  { intros l. split.
    - destruct (decide ((x, y) ∈ l)) as [Hin | Hnot]; [left; exact Hin |].
      rewrite (paint_other l cv x y Hnot). right. assumption.
    - intros [Hin | Hy]; [| apply paint_keeps_yellow; exact Hy].
      revert cv. induction l as [| p l IH]; intros cv; [inversion Hin |].
      rewrite paint_cons. apply elem_of_cons in Hin as [<- | Hin].
      + apply paint_keeps_yellow. unfold point. simpl. rewrite !Z.eqb_refl. reflexivity.
      + apply IH. exact Hin. }
  split; [apply Hiff |].
  intros pts' Hperm.
  destruct (paint pts cv x y) eqn:Hp.
  - destruct (paint pts' cv x y) eqn:Hp'; [reflexivity |].
    apply Hiff in Hp'. rewrite <- Hperm in Hp'. apply Hiff in Hp'. congruence.
  - apply Hiff. rewrite <- Hperm. apply Hiff. exact Hp.
Qed.


(** ** Drawing methods as steps of the board *)

Lemma get_bitmap_heights_ok (text : string) (f : FreeTypeFont) (c : BitmapTextCache) :
  font_ok f -> heights_ok c -> heights_ok (get_bitmap text f c).2.
Proof.
  intros Hf Hc. unfold get_bitmap. cbv zeta.
  destruct (cache c !! (text +:+ (getname f).1 +:+ (getname f).2)) as [e' |] eqn:Hkey.
  - exact Hc.
  - pose proof (Hf text) as Hh.
    destruct (getbbox f text) as [[[x0 y0] w] h]. simpl in *.
    intros k e. simpl. rewrite lookup_insert. case_decide.
    + intros [= <-]. exact Hh.
    + apply Hc.
Qed.

Lemma board_step_refl (b : Board) : board_step b b.
Proof.
  unfold board_step. repeat split; auto using cache_extends_refl.
  all: intros; assumption.
Qed.

Lemma board_step_trans (b1 b2 b3 : Board) :
  board_step b1 b2 -> board_step b2 b3 -> board_step b1 b3.
Proof.
  intros (Hc1 & Hf1 & Hd1 & Hs1 & He1 & Hh1) (Hc2 & Hf2 & Hd2 & Hs2 & He2 & Hh2).
  unfold board_step. repeat split; try congruence.
  - destruct He1, He2. auto.
  - destruct He1, He2. auto.
  - intros Hfs Hh. apply Hh2; [rewrite Hf1; exact Hfs |]. apply Hh1; assumption.
Qed.

(** A step that consists of one lookup. *)
Lemma board_step_lookup (text : string) (f : FreeTypeFont) (b : Board) :
  (fonts_ok (fonts b) -> font_ok f) ->
  board_step b (set_cache (get_bitmap text f (bitmap_cache b)).2 b).
Proof.
  intros Hf. unfold board_step. cbn [config fonts departure_data station_name
                                      bitmap_cache set_cache].
  repeat split; try apply get_bitmap_extends.
  intros Hfs Hh. apply get_bitmap_heights_ok; auto.
Qed.

Lemma board_step_scroll (s : ScrollState) (b : Board) : board_step b (set_scroll s b).
Proof.
  unfold board_step.
  cbn [config fonts departure_data station_name bitmap_cache set_scroll].
  do 4 (split; [reflexivity |]).
  split; [apply cache_extends_refl | intros _ H; exact H].
Qed.

Lemma fonts_ok_font (fs : Fonts) : fonts_ok fs -> font_ok (font fs).
Proof. intros H. apply H. Qed.

Lemma fonts_ok_bold (fs : Fonts) : fonts_ok fs -> font_ok (font_bold fs).
Proof. intros H. apply H. Qed.

Lemma fonts_ok_tall (fs : Fonts) : fonts_ok fs -> font_ok (font_bold_tall fs).
Proof. intros H. apply H. Qed.

Lemma fonts_ok_large (fs : Fonts) : fonts_ok fs -> font_ok (font_bold_large fs).
Proof. intros H. apply H. Qed.

(** Replace the next lookup in the goal by its result, on a board [b0]
    whose cache it reads, and record the step. *)
Ltac lookup_step b0 :=
  match goal with
  | |- context [get_bitmap ?t ?f (bitmap_cache b0)] =>
      let H := fresh "Hstep" in
      assert (H : board_step b0 (set_cache (get_bitmap t f (bitmap_cache b0)).2 b0))
        by (apply board_step_lookup;
            auto using fonts_ok_font, fonts_ok_bold, fonts_ok_tall, fonts_ok_large);
      destruct (get_bitmap t f (bitmap_cache b0)) as [[[? ?] ?] ?];
      cbn [fst snd] in H |- *
  end.

Lemma set_cache_cache (c : BitmapTextCache) (b : Board) :
  bitmap_cache (set_cache c b) = c.
Proof. reflexivity. Qed.

Lemma set_cache_twice (c c' : BitmapTextCache) (b : Board) :
  set_cache c' (set_cache c b) = set_cache c' b.
Proof. reflexivity. Qed.

(** [_draw_scrolling_text]: one lookup and one step of the animator. *)
Lemma draw_scrolling_text_effect (text : string) (x_offset y_pos max_width : Z)
    (b : Board) :
  let r := get_bitmap text (font (fonts b)) (bitmap_cache b) in
  (draw_scrolling_text text x_offset y_pos max_width b).1 =
    set_scroll (scroll_advance r.1.1.1 r.1.1.2 (scroll b)) (set_cache r.2 b).
Proof.
  cbv zeta. unfold draw_scrolling_text.
  destruct (get_bitmap text (font (fonts b)) (bitmap_cache b)) as [[[w h] r] c].
  reflexivity.
Qed.

(** A row as a sequence of lookups on the board. *)
Lemma draw_departure_row_board (d : Departure) (y_pos : Z) (f : FreeTypeFont)
    (show_calling : bool) (b : Board) :
  let b1 := set_cache (get_bitmap (train_text (config b) d y_pos) f (bitmap_cache b)).2 b in
  let b2 := set_cache (get_bitmap (get_status_text d) (font (fonts b)) (bitmap_cache b1)).2 b in
  let b3 := match platform d with
            | Some p => set_cache (get_bitmap (platform_text p) (font (fonts b))
                                     (bitmap_cache b2)).2 b
            | None => b2
            end in
  (draw_departure_row d y_pos f show_calling b).1 =
    if show_calling then
      let r4 := get_bitmap "Calling at: " (font (fonts b)) (bitmap_cache b3) in
      (draw_scrolling_text (calling_at_list d) r4.1.1.1 (y_pos + 12) (256 - r4.1.1.1)
         (set_cache r4.2 b)).1
    else b3.
Proof.
  cbv zeta. unfold draw_departure_row.
  destruct (get_bitmap (train_text (config b) d y_pos) f (bitmap_cache b))
    as [[[w h] bmp] c1].
  cbn [fst snd bitmap_cache set_cache].
  destruct (get_bitmap (get_status_text d) (font (fonts b)) c1)
    as [[[w_status h_status] status_bitmap] c2].
  cbn [fst snd bitmap_cache set_cache].
  destruct (platform d) as [p |].
  - destruct (get_bitmap (platform_text p) (font (fonts b)) c2)
      as [[[w_plat h_plat] plat_bitmap] c3].
    cbn [fst snd bitmap_cache set_cache].
    destruct show_calling; [| reflexivity].
    destruct (get_bitmap "Calling at: " (font (fonts b)) c3)
      as [[[w_call h_call] call_bitmap] c4].
    cbn [fst snd].
    destruct (draw_scrolling_text _ _ _ _ _) as [b' calls']. reflexivity.
  - cbn [fst snd bitmap_cache set_cache].
    destruct show_calling; [| reflexivity].
    destruct (get_bitmap "Calling at: " (font (fonts b)) c2)
      as [[[w_call h_call] call_bitmap] c4].
    cbn [fst snd].
    destruct (draw_scrolling_text _ _ _ _ _) as [b' calls']. reflexivity.
Qed.

Lemma draw_departure_row_step (d : Departure) (y_pos : Z) (f : FreeTypeFont)
    (show_calling : bool) (b : Board) :
  (fonts_ok (fonts b) -> font_ok f) ->
  board_step b (draw_departure_row d y_pos f show_calling b).1.
Proof.
  intros Hf. rewrite draw_departure_row_board. cbv zeta.
  set (b1 := set_cache (get_bitmap (train_text (config b) d y_pos) f (bitmap_cache b)).2 b).
  set (b2 := set_cache (get_bitmap (get_status_text d) (font (fonts b)) (bitmap_cache b1)).2 b).
  set (b3 := match platform d with
             | Some p => set_cache (get_bitmap (platform_text p) (font (fonts b))
                                      (bitmap_cache b2)).2 b
             | None => b2
             end).
  assert (H1 : board_step b b1) by (apply board_step_lookup; exact Hf).
  assert (H2 : board_step b1 b2)
    by (apply (board_step_lookup (get_status_text d) (font (fonts b)) b1), fonts_ok_font).
  assert (H3 : board_step b2 b3).
  { unfold b3. destruct (platform d) as [p |]; [| apply board_step_refl].
    apply (board_step_lookup (platform_text p) (font (fonts b)) b2), fonts_ok_font. }
  pose proof (board_step_trans _ _ _ (board_step_trans _ _ _ H1 H2) H3) as H13.
  destruct show_calling; [| exact H13].
  rewrite draw_scrolling_text_effect. cbv zeta.
  set (b4 := set_cache (get_bitmap "Calling at: " (font (fonts b)) (bitmap_cache b3)).2 b).
  assert (H4 : board_step b3 b4).
  { assert (Hf3 : fonts b3 = fonts b) by apply H13.
    assert (Hb4 : b4 = set_cache (get_bitmap "Calling at: " (font (fonts b3))
                                    (bitmap_cache b3)).2 b3).
    { rewrite Hf3. unfold b4, b3, b2, b1. destruct (platform d); reflexivity. }
    rewrite Hb4. apply board_step_lookup, fonts_ok_font. }
  eapply board_step_trans; [exact H13 |].
  eapply board_step_trans; [exact H4 |].
  eapply board_step_trans; [| apply board_step_scroll].
  apply (board_step_lookup (calling_at_list d) (font (fonts b4)) b4), fonts_ok_font.
Qed.

Lemma draw_departure_row_scroll (d : Departure) (y_pos : Z) (f : FreeTypeFont)
    (show_calling : bool) (b : Board) :
  let b' := (draw_departure_row d y_pos f show_calling b).1 in
  if show_calling then
    exists e : CacheEntry,
      cache (bitmap_cache b') !! cache_key (calling_at_list d) (font (fonts b)) = Some e /\
      scroll b' = scroll_advance (txt_width e) (txt_height e) (scroll b)
  else scroll b' = scroll b.
Proof.
  cbv zeta. rewrite draw_departure_row_board. cbv zeta.
  destruct show_calling.
  - rewrite draw_scrolling_text_effect. cbv zeta.
    cbn [scroll set_scroll set_cache bitmap_cache fonts].
    match goal with
    | |- context [get_bitmap (calling_at_list d) ?f0 ?c0] =>
        destruct (get_bitmap_cached (calling_at_list d) f0 c0) as (e & He & Hres)
    end.
    exists e. split; [exact He |]. rewrite Hres. reflexivity.
  - destruct (platform d); reflexivity.
Qed.

Lemma draw_no_trains_step (b : Board) : board_step b (draw_no_trains b).1.
Proof.
  unfold draw_no_trains. cbv zeta.
  set (t := if truthy (station_name b) then station_name b
            else default "" (outOfHoursName (journey (config b)))).
  set (b1 := set_cache (get_bitmap "Welcome to" (font_bold (fonts b)) (bitmap_cache b)).2 b).
  set (b2 := set_cache (get_bitmap t (font_bold (fonts b)) (bitmap_cache b1)).2 b).
  set (b3 := set_cache (get_bitmap "No trains scheduled" (font (fonts b))
                          (bitmap_cache b2)).2 b).
  assert (H1 : board_step b b1) by apply board_step_lookup, fonts_ok_bold.
  assert (H2 : board_step b1 b2)
    by apply (board_step_lookup t (font_bold (fonts b)) b1), fonts_ok_bold.
  assert (H3 : board_step b2 b3)
    by apply (board_step_lookup "No trains scheduled" (font (fonts b)) b2), fonts_ok_font.
  assert (Hres : (let '((w1, h1, bmp1), c1) :=
                    get_bitmap "Welcome to" (font_bold (fonts b)) (bitmap_cache b) in
                  let '((w2, h2, bmp2), c2) := get_bitmap t (font_bold (fonts b)) c1 in
                  let '((w3, h3, bmp3), c3) :=
                    get_bitmap "No trains scheduled" (font (fonts b)) c2 in
                  (set_cache c3 b,
                   [Blit ((256 - w1) / 2) 5 bmp1; Blit ((256 - w2) / 2) 17 bmp2;
                    Blit ((256 - w3) / 2) 35 bmp3])).1 = b3).
  { unfold b3, b2, b1. cbn [bitmap_cache set_cache].
    destruct (get_bitmap "Welcome to" _ _) as [[[w1 h1] bmp1] c1]. cbn [fst snd].
    destruct (get_bitmap t _ c1) as [[[w2 h2] bmp2] c2]. cbn [fst snd].
    destruct (get_bitmap "No trains scheduled" _ c2) as [[[w3 h3] bmp3] c3].
    reflexivity. }
  rewrite Hres.
  exact (board_step_trans _ _ _ (board_step_trans _ _ _ H1 H2) H3).
Qed.

Lemma draw_no_trains_scroll (b : Board) : scroll (draw_no_trains b).1 = scroll b.
Proof.
  unfold draw_no_trains. cbv zeta.
  destruct (get_bitmap "Welcome to" _ _) as [[[w1 h1] bmp1] c1].
  destruct (get_bitmap _ _ c1) as [[[w2 h2] bmp2] c2].
  destruct (get_bitmap "No trains scheduled" _ c2) as [[[w3 h3] bmp3] c3].
  reflexivity.
Qed.

Lemma draw_time_step (now : string * string * string) (b : Board) :
  board_step b (draw_time now b).1 /\ scroll (draw_time now b).1 = scroll b.
Proof.
  unfold draw_time. destruct now as [[hour minute] second]. cbv zeta.
  set (b1 := set_cache (get_bitmap (hour +:+ ":" +:+ minute) (font_bold_large (fonts b))
                          (bitmap_cache b)).2 b).
  assert (H1 : board_step b b1) by apply board_step_lookup, fonts_ok_large.
  assert (H2 : board_step b1
                 (set_cache (get_bitmap (":" +:+ second) (font_bold_tall (fonts b))
                               (bitmap_cache b1)).2 b))
    by apply (board_step_lookup (":" +:+ second) (font_bold_tall (fonts b)) b1),
             fonts_ok_tall.
  pose proof (board_step_trans _ _ _ H1 H2) as H12. clear H1 H2.
  unfold b1 in H12. cbn [bitmap_cache set_cache] in H12.
  destruct (get_bitmap (hour +:+ ":" +:+ minute) _ _) as [[[w1 h1] bmp1] c1].
  cbn [fst snd] in *.
  destruct (get_bitmap (":" +:+ second) _ c1) as [[[w2 h2] bmp2] c2].
  cbn [fst snd] in *. split; [exact H12 | reflexivity].
Qed.

(** [_draw_departures] on a board with departures: the first row makes
    the one step of the animator, with the size cached for its text. *)
Lemma draw_departures_effect (b : Board) (d0 : Departure) (rest : list Departure) :
  departure_data b = Some (d0 :: rest) ->
  board_step b (draw_departures b).1 /\
  exists e : CacheEntry,
    cache (bitmap_cache (draw_departures b).1)
      !! cache_key (calling_at_list d0) (font (fonts b)) = Some e /\
    scroll (draw_departures b).1 =
      scroll_advance (txt_width e) (txt_height e) (scroll b).
Proof.
  intros Hdata. unfold draw_departures. rewrite Hdata. cbn [default from_option id].
  set (ff := if firstDepartureBold (config b) then font_bold (fonts b) else font (fonts b)).
  assert (Hff : fonts_ok (fonts b) -> font_ok ff).
  { intros Hfs. unfold ff. destruct (firstDepartureBold (config b)); apply Hfs. }
  pose proof (draw_departure_row_step d0 0 ff true b Hff) as Hs1.
  pose proof (draw_departure_row_scroll d0 0 ff true b) as (e & He & Hsc).
  destruct (draw_departure_row d0 0 ff true b) as [b1 calls1]. cbn [fst snd] in *.
  assert (Hf1 : fonts b1 = fonts b) by apply Hs1.
  destruct rest as [| d1 rest].
  { cbn [fst]. split; [exact Hs1 | exists e; auto]. }
  pose proof (draw_departure_row_step d1 24 (font (fonts b1)) false b1
                (fonts_ok_font _)) as Hs2.
  pose proof (draw_departure_row_scroll d1 24 (font (fonts b1)) false b1) as Hsc2.
  destruct (draw_departure_row d1 24 (font (fonts b1)) false b1) as [b2 calls2].
  cbn [fst snd] in *.
  assert (He2 : cache (bitmap_cache b2)
                  !! cache_key (calling_at_list d0) (font (fonts b)) = Some e)
    by (apply Hs2; exact He).
  destruct rest as [| d2 rest].
  { cbn [fst]. split; [exact (board_step_trans _ _ _ Hs1 Hs2) |].
    exists e. split; [exact He2 | congruence]. }
  pose proof (draw_departure_row_step d2 36 (font (fonts b2)) false b2
                (fonts_ok_font _)) as Hs3.
  pose proof (draw_departure_row_scroll d2 36 (font (fonts b2)) false b2) as Hsc3.
  destruct (draw_departure_row d2 36 (font (fonts b2)) false b2) as [b3 calls3].
  cbn [fst snd] in *.
  split; [exact (board_step_trans _ _ _ (board_step_trans _ _ _ Hs1 Hs2) Hs3) |].
  exists e. split; [apply Hs3; exact He2 | congruence].
Qed.

(** The board part of a frame. *)
Lemma draw_board_step (b : Board) : board_step b (draw_board b).1.
Proof.
  unfold draw_board. destruct (departure_data b) as [[| d0 rest] |] eqn:Hd;
    try apply draw_no_trains_step.
  apply (draw_departures_effect b d0 rest Hd).
Qed.

Lemma refresh_data_fonts (src : DataSource) (b : Board) :
  fonts (refresh_data src b) = fonts b /\ config (refresh_data src b) = config b.
Proof.
  unfold refresh_data.
  destruct (operating_hours_gate src (config b)); try (split; reflexivity).
  destruct (loadDeparturesForStation src _ _ _) as [[[deps st] dest] |];
    split; reflexivity.
Qed.

(** ** The clock and the frame *)

Lemma clock_layout_aux (hour minute second : string) (b : Board) :
  exists (x1 x2 : Z) (r1 r2 : nat),
    (draw_time (hour, minute, second) b).2 = [Blit x1 50 r1; Blit x2 55 r2].
Proof.
  unfold draw_time.
  destruct (get_bitmap (hour +:+ ":" +:+ minute) _ _) as [[[w1 h1] bmp1] c1].
  destruct (get_bitmap (":" +:+ second) _ c1) as [[[w2 h2] bmp2] c2].
  cbn [snd]. eauto.
Qed.

(** X10: the clock is two blits: hour and minute in the large bold font on
    line 50 and the seconds in the tall bold font on line 55, the seconds
    starting where hour and minute end.  The pair is centred on the 256
    columns (the right margin is the left margin or one more), and drawing
    it leaves the animation alone. *)
Theorem clock_layout (hour minute second : string) (b : Board) :
  let r1 := get_bitmap (hour +:+ ":" +:+ minute) (font_bold_large (fonts b))
              (bitmap_cache b) in
  let r2 := get_bitmap (":" +:+ second) (font_bold_tall (fonts b)) r1.2 in
  let w1 := r1.1.1.1 in
  let w2 := r2.1.1.1 in
  exists x : Z,
    (draw_time (hour, minute, second) b).2 =
      [Blit x 50 r1.1.2; Blit (x + w1) 55 r2.1.2] /\
    0 <= (256 - (x + w1 + w2)) - x <= 1 /\
    scroll (draw_time (hour, minute, second) b).1 = scroll b.
Proof.
  cbv zeta. unfold draw_time.
  destruct (get_bitmap (hour +:+ ":" +:+ minute) _ _) as [[[w1 h1] bmp1] c1].
  cbn [fst snd].
  destruct (get_bitmap (":" +:+ second) _ c1) as [[[w2 h2] bmp2] c2].
  cbn [fst snd].
  exists ((256 - (w1 + w2)) / 2). split; [reflexivity | split; [| reflexivity]].
  pose proof (Z.div_mod (256 - (w1 + w2)) 2 ltac:(lia)).
  pose proof (Z.mod_pos_bound (256 - (w1 + w2)) 2 ltac:(lia)). lia.
Qed.

(** X11: every frame ends with the two clock blits on lines 50 and 55.
    A frame whose refresh is due and finds the board out of hours, or
    fails, shows the three placeholder lines and the clock, five blits in
    all, and does not move the animation. *)
Theorem frame_ends_with_clock (src : DataSource) (refresh_due : bool)
    (now : string * string * string) (b : Board) :
  let frame := render_frame src refresh_due now b in
  (exists (board_calls : list DrawCall) (x1 x2 : Z) (r1 r2 : nat),
     frame.2 = board_calls ++ [Blit x1 50 r1; Blit x2 55 r2]) /\
  (refresh_due = true ->
   operating_hours_gate src (config b) <> GateOpen \/
   loadDeparturesForStation src (journey (config b)) (apiKey (api (config b))) "10"
     = None ->
   length frame.2 = 5%nat /\ Forall (fun c => is_clipped c = false) frame.2 /\
   scroll frame.1 = scroll b /\ departure_data frame.1 = Some []).
Proof.
  cbv zeta. unfold render_frame.
  set (b0 := if refresh_due then refresh_data src b else b).
  split.
  - destruct (draw_board b0) as [b1 calls1].
    destruct now as [[hour minute] second].
    destruct (clock_layout_aux hour minute second b1) as (x1 & x2 & r1 & r2 & Hc).
    destruct (draw_time (hour, minute, second) b1) as [b2 calls2].
    cbn [fst snd] in *. subst calls2. eauto 10.
  - intros -> Hfail.
    assert (Hb0 : departure_data b0 = Some [] /\ scroll b0 = scroll b).
    { unfold b0, refresh_data.
      destruct (operating_hours_gate src (config b)); try (split; reflexivity).
      destruct (loadDeparturesForStation src _ _ _) as [[[deps st] dest] |];
        [| split; reflexivity].
      destruct Hfail; congruence. }
    destruct Hb0 as [Hd0 Hs0].
    assert (Hboard : draw_board b0 = draw_no_trains b0)
      by (unfold draw_board; rewrite Hd0; reflexivity).
    rewrite Hboard.
    pose proof (draw_no_trains_scroll b0) as Hsc.
    pose proof (draw_no_trains_step b0) as Hst.
    assert (Hlen : exists c1 c2 c3,
               (draw_no_trains b0).2 = [c1; c2; c3] /\
               is_clipped c1 = false /\ is_clipped c2 = false /\ is_clipped c3 = false).
    { unfold draw_no_trains. cbv zeta.
      destruct (get_bitmap "Welcome to" _ _) as [[[w1 h1] bmp1] c1].
      destruct (get_bitmap _ _ c1) as [[[w2 h2] bmp2] c2].
      destruct (get_bitmap "No trains scheduled" _ c2) as [[[w3 h3] bmp3] c3].
      cbn [snd]. eauto 10. }
    destruct Hlen as (k1 & k2 & k3 & Hcalls & Hk1 & Hk2 & Hk3).
    destruct (draw_no_trains b0) as [b1 calls1]. cbn [fst snd] in *. subst calls1.
    destruct now as [[hour minute] second].
    destruct (clock_layout_aux hour minute second b1) as (x1 & x2 & r1 & r2 & Hc).
    pose proof (draw_time_step (hour, minute, second) b1) as [Hst2 Hsc2].
    destruct (draw_time (hour, minute, second) b1) as [b2 calls2].
    cbn [fst snd] in *. subst calls2.
    split; [reflexivity | split; [| split]].
    + repeat constructor; assumption.
    + congruence.
    + destruct Hst as (_ & _ & Hd1 & _). destruct Hst2 as (_ & _ & Hd2 & _). congruence.
Qed.

Lemma frame_ends_with_clock_witness :
  length (render_frame (sample_source false true) true ("10"%string, "05"%string, "07"%string)
            (sample_board "6-23")).2 = 5%nat /\
  scroll (render_frame (sample_source false true) true ("10"%string, "05"%string, "07"%string)
            (sample_board "6-23")).1 = mkScroll (-50) 0 true 0.
Proof.
  pose proof (proj2 (frame_ends_with_clock (sample_source false true) true
                       ("10"%string, "05"%string, "07"%string) (sample_board "6-23"))
                eq_refl) as H.
  destruct H as (Hlen & _ & Hsc & _).
  - left. discriminate.
  - split; [exact Hlen | exact Hsc].
Defined.

(** ** Departure rows *)

(** The calls of one row: the blits on the row's own line, then, for the
    first row, the label and the one clipped blit of the scrolling text,
    whose window ends at the right edge. *)
Lemma draw_departure_row_calls (d : Departure) (y_pos : Z) (f : FreeTypeFont)
    (show_calling : bool) (b : Board) :
  exists row tail : list DrawCall,
    (draw_departure_row d y_pos f show_calling b).2 = row ++ tail /\
    Forall (fun c => is_clipped c = false /\ call_y c = y_pos) row /\
    (2 <= length row <= 3)%nat /\
    if show_calling then
      exists (e : CacheEntry) (r4 r5 : nat) (x wc : Z),
        cache (bitmap_cache (draw_departure_row d y_pos f show_calling b).1)
          !! cache_key (calling_at_list d) (font (fonts b)) = Some e /\
        tail = [Blit 0 (y_pos + 12) r4;
                BlitClipped x
                  (if has_elevated (scroll b) then y_pos + 12
                   else y_pos + 12 + txt_height e - pixels_up (scroll b))
                  r5 wc (256 - wc)]
    else tail = [].
Proof.
  pose proof (draw_departure_row_board d y_pos f show_calling b) as Hboard.
  cbv zeta in Hboard. revert Hboard.
  unfold draw_departure_row.
  destruct (get_bitmap (train_text (config b) d y_pos) f (bitmap_cache b))
    as [[[w h] bmp] c1].
  cbn [fst snd bitmap_cache set_cache].
  destruct (get_bitmap (get_status_text d) (font (fonts b)) c1)
    as [[[w_status h_status] status_bitmap] c2].
  cbn [fst snd bitmap_cache set_cache].
  set (plat := match platform d with
               | Some p =>
                   let '(w_plat, _, plat_bitmap, c3) :=
                     get_bitmap (platform_text p) (font (fonts b)) c2 in
                   (c3, [Blit (256 - w_status - w_plat - 5) y_pos plat_bitmap])
               | None => (c2, [])
               end).
  assert (Hplat : Forall (fun c => is_clipped c = false /\ call_y c = y_pos) plat.2 /\
                  (length plat.2 <= 1)%nat).
  { unfold plat. destruct (platform d) as [p |].
    - destruct (get_bitmap (platform_text p) _ c2) as [[[w_plat h_plat] plat_bitmap] c3].
      simpl. split; [repeat constructor | lia].
    - simpl. split; [constructor | lia]. }
  destruct plat as [c3 plat_calls]. cbn [fst snd] in Hplat. destruct Hplat as [Hpf Hpl].
  intros Hboard.
  exists ([Blit 0 y_pos bmp; Blit (256 - w_status) y_pos status_bitmap] ++ plat_calls).
  destruct show_calling.
  - unfold draw_scrolling_text in *.
    destruct (get_bitmap "Calling at: " (font (fonts b)) c3)
      as [[[w_call h_call] call_bitmap] c4].
    cbn [fonts set_cache bitmap_cache scroll].
    destruct (get_bitmap_cached (calling_at_list d) (font (fonts b)) c4)
      as (e & He & Hres).
    destruct (get_bitmap (calling_at_list d) (font (fonts b)) c4)
      as [[[w_s h_s] s_bitmap] c5].
    cbn [fst snd] in *. injection Hres as -> -> ->.
    eexists. split; [reflexivity |]. split; [| split].
    + repeat constructor; exact Hpf.
    + simpl. lia.
    + exists e, call_bitmap, (bitmap e).
      destruct (has_elevated (scroll b)); eauto.
  - exists []. split; [symmetry; apply app_nil_r |]. split; [| split; [| reflexivity]].
    + repeat constructor; exact Hpf.
    + simpl. lia.
Qed.



(** A row does not read the departure list of the board. *)
Lemma draw_departure_row_data (d : Departure) (y_pos : Z) (f : FreeTypeFont)
    (show_calling : bool) (data : option (list Departure)) (b : Board) :
  draw_departure_row d y_pos f show_calling (set_departure_data data b) =
    (set_departure_data data (draw_departure_row d y_pos f show_calling b).1,
     (draw_departure_row d y_pos f show_calling b).2).
Proof.
  unfold draw_departure_row, draw_scrolling_text.
  cbn [config fonts bitmap_cache scroll set_departure_data set_cache].
  destruct (get_bitmap (train_text (config b) d y_pos) f (bitmap_cache b))
    as [[[w h] bmp] c1].
  destruct (get_bitmap (get_status_text d) (font (fonts b)) c1)
    as [[[w_status h_status] status_bitmap] c2].
  destruct (platform d) as [p |].
  - destruct (get_bitmap (platform_text p) (font (fonts b)) c2)
      as [[[w_plat h_plat] plat_bitmap] c3].
    destruct show_calling; [| reflexivity].
    destruct (get_bitmap "Calling at: " (font (fonts b)) c3)
      as [[[w_call h_call] call_bitmap] c4].
    destruct (get_bitmap (calling_at_list d) (font (fonts b)) c4)
      as [[[w_s h_s] s_bitmap] c5].
    reflexivity.
  - destruct show_calling; [| reflexivity].
    destruct (get_bitmap "Calling at: " (font (fonts b)) c2)
      as [[[w_call h_call] call_bitmap] c4].
    destruct (get_bitmap (calling_at_list d) (font (fonts b)) c4)
      as [[[w_s h_s] s_bitmap] c5].
    reflexivity.
Qed.

(** X13: only the first three departures are ever drawn: the calls of a
    frame, the cache and the animation state after it are the same for a
    departure list and for its first three entries. *)
Theorem only_three_departures_drawn (b : Board) (l : list Departure) :
  let full := draw_departures (set_departure_data (Some l) b) in
  let three := draw_departures (set_departure_data (Some (take 3 l)) b) in
  full.2 = three.2 /\
  bitmap_cache full.1 = bitmap_cache three.1 /\
  scroll full.1 = scroll three.1.
Proof.
  cbv zeta. destruct l as [| d0 [| d1 [| d2 rest]]]; try (repeat split; reflexivity).
  unfold draw_departures.
  cbn [departure_data set_departure_data default from_option id take config fonts].
  rewrite !(draw_departure_row_data d0).
  destruct (draw_departure_row d0 0 _ true b) as [b1 calls1].
  cbn [fst snd fonts set_departure_data].
  rewrite !(draw_departure_row_data d1).
  destruct (draw_departure_row d1 24 _ false b1) as [b2 calls2].
  cbn [fst snd fonts set_departure_data].
  rewrite !(draw_departure_row_data d2).
  destruct (draw_departure_row d2 36 _ false b2) as [b3 calls3].
  cbn [fst snd]. repeat split; reflexivity.
Qed.

(** ** The animation across frames *)

Lemma render_frame_unfold (src : DataSource) (refresh_due : bool)
    (now : string * string * string) (b : Board) :
  (render_frame src refresh_due now b).1 =
    (draw_time now (draw_board (if refresh_due then refresh_data src b else b)).1).1.
Proof.
  unfold render_frame.
  destruct (draw_board _) as [b1 calls1]. cbn [fst snd].
  destruct (draw_time now b1) as [b2 calls2]. reflexivity.
Qed.

(** A frame without refresh, the calling-at text already cached. *)
Lemma render_frame_idle (src : DataSource) (now : string * string * string)
    (b : Board) (d0 : Departure) (rest : list Departure) (e : CacheEntry) :
  departure_data b = Some (d0 :: rest) ->
  cache (bitmap_cache b) !! cache_key (calling_at_list d0) (font (fonts b)) = Some e ->
  board_step b (render_frame src false now b).1 /\
  scroll (render_frame src false now b).1 =
    scroll_advance (txt_width e) (txt_height e) (scroll b).
Proof.
  intros Hdata He. rewrite render_frame_unfold.
  assert (Hboard : draw_board b = draw_departures b)
    by (unfold draw_board; rewrite Hdata; reflexivity).
  rewrite Hboard.
  destruct (draw_departures_effect b d0 rest Hdata) as (Hs1 & e' & He' & Hsc).
  destruct (draw_time_step now (draw_departures b).1) as [Hs2 Hsc2].
  split; [exact (board_step_trans _ _ _ Hs1 Hs2) |].
  rewrite Hsc2, Hsc.
  assert (e' = e).
  { destruct Hs1 as (_ & _ & _ & _ & [Hkeep _] & _).
    apply Hkeep in He. congruence. }
  subst e'. reflexivity.
Qed.

(** X14: between two refreshes the frame loop runs the animator: on a
    board with departures whose calling-at text is cached with width [w]
    and height [h], any number of frames without refresh, whatever the
    clock shows, takes the animation state to
    [scroll_frames w h n] of it, and leaves the departures in place. *)
Theorem idle_frames_animate (ticks : list Tick) (b : Board) (d0 : Departure)
    (rest : list Departure) (e : CacheEntry) :
  Forall (fun t => tick_refresh_due t = false) ticks ->
  departure_data b = Some (d0 :: rest) ->
  cache (bitmap_cache b) !! cache_key (calling_at_list d0) (font (fonts b)) = Some e ->
  scroll (run_frames ticks b) =
    scroll_frames (txt_width e) (txt_height e) (length ticks) (scroll b) /\
  departure_data (run_frames ticks b) = Some (d0 :: rest).
Proof.
  intros Hidle. revert b. induction Hidle as [| t ticks Ht Hidle IH]; intros b Hdata He.
  - simpl. split; [reflexivity | exact Hdata].
  - cbn [run_frames scroll_frames length]. rewrite Ht.
    destruct (render_frame_idle (tick_source t) (tick_now t) b d0 rest e Hdata He)
      as [Hstep Hsc].
    destruct Hstep as (_ & Hf & Hd & _ & [Hkeep _] & _).
    rewrite <- Hsc. apply IH.
    + rewrite Hd. exact Hdata.
    + rewrite Hf. apply Hkeep. exact He.
Qed.


Lemma idle_frames_animate_witness :
  let b := run_frames [sample_tick false] (sample_board "") in
  scroll (run_frames [sample_tick false; sample_tick false; sample_tick false] b)
    = scroll_frames 216 10 3 (scroll b).
Proof.
  exact (proj1 (idle_frames_animate
                  [sample_tick false; sample_tick false; sample_tick false]
                  (run_frames [sample_tick false] (sample_board ""))
                  (sample_departure (Some "4")) [] (mkEntry 4 216 10)
                  ltac:(repeat constructor) eq_refl eq_refl)).
Defined.

(** ** The animation stays within its text *)

Lemma refresh_data_ok (src : DataSource) (b : Board) :
  board_ok b -> board_ok (refresh_data src b).
Proof.
  intros (Hf & Hh & Hs). unfold board_ok.
  destruct (refresh_data_fonts src b) as [Hfonts _].
  rewrite Hfonts, refresh_data_cache. split; [exact Hf | split; [exact Hh |]].
  unfold scroll_ok, refresh_data.
  destruct (operating_hours_gate src (config b)); try (intros d0 rest; discriminate).
  destruct (loadDeparturesForStation src _ _ _) as [[[deps st] dest] |];
    [| intros d0 rest; discriminate].
  intros d0 rest _. left. reflexivity.
Qed.

Lemma frame_body_ok (now : string * string * string) (b : Board) :
  board_ok b -> board_ok (draw_time now (draw_board b).1).1.
Proof.
  intros (Hf & Hh & Hs).
  pose proof (draw_board_step b) as Hs1.
  destruct (draw_time_step now (draw_board b).1) as [Hs2 Hsc2].
  pose proof (board_step_trans _ _ _ Hs1 Hs2) as Hs12.
  destruct Hs12 as (_ & Hfonts & Hdata & _ & _ & Hheights).
  unfold board_ok. rewrite Hfonts.
  split; [exact Hf | split; [apply Hheights; assumption |]].
  intros d0 rest Hd. rewrite Hdata in Hd. right.
  assert (Hboard : draw_board b = draw_departures b)
    by (unfold draw_board; rewrite Hd; reflexivity).
  rewrite Hboard in *.
  destruct (draw_departures_effect b d0 rest Hd) as (Hstep & e & He & Hsc).
  exists e. rewrite Hfonts. split.
  - destruct Hs2 as (_ & _ & _ & _ & [Hkeep _] & _). apply Hkeep. exact He.
  - rewrite Hsc2, Hsc.
    assert (He0 : 0 <= txt_height e).
    { destruct Hstep as (_ & _ & _ & _ & _ & Hh1). exact (Hh1 Hf Hh _ e He). }
    apply scroll_advance_bounded; [exact He0 |].
    destruct (Hs d0 rest Hd) as [Hinit | (e0 & He0' & Hb0)].
    + rewrite Hinit. unfold scroll_bounded. simpl. lia.
    + assert (e0 = e).
      { destruct Hstep as (_ & _ & _ & _ & [Hkeep _] & _).
        apply Hkeep in He0'. congruence. }
      subst e0. exact Hb0.
Qed.

Lemma render_frame_ok (src : DataSource) (refresh_due : bool)
    (now : string * string * string) (b : Board) :
  board_ok b -> board_ok (render_frame src refresh_due now b).1.
Proof.
  intros Hok. rewrite render_frame_unfold. apply frame_body_ok.
  destruct refresh_due; [apply refresh_data_ok |]; exact Hok.
Qed.

Lemma run_frames_ok (ticks : list Tick) : forall b : Board,
  board_ok b -> board_ok (run_frames ticks b).
Proof.
  induction ticks as [| t ticks IH]; intros b Hok; [exact Hok |].
  cbn [run_frames]. apply IH, render_frame_ok, Hok.
Qed.

Lemma board_init_ok (cfg : Config) (fs : Fonts) : fonts_ok fs -> board_ok (board_init cfg fs).
Proof.
  intros Hf. split; [exact Hf | split].
  - intros k e Hk. simpl in Hk. rewrite lookup_empty in Hk. discriminate.
  - intros d0 rest Hd. discriminate Hd.
Qed.

(** X15: with fonts that measure no negative height, at every moment of
    a run of the application (the initial load and any sequence of frames,
    with refreshes that load, fail or fall out of hours, and with texts
    that change from one load to the next) a board that shows departures
    has its animation either in the initial state or within the height [h]
    cached for the calling-at text it shows: [0 <= pixels_up <= h] and
    [pixels_left <= 1].  No cached height is negative. *)
Theorem run_keeps_animation_within_text (src : DataSource) (ticks : list Tick)
    (cfg : Config) (fs : Fonts) :
  fonts_ok fs ->
  let b := run src ticks (board_init cfg fs) in
  heights_ok (bitmap_cache b) /\
  (forall (d0 : Departure) (rest : list Departure),
     departure_data b = Some (d0 :: rest) ->
     scroll b = scroll_init \/
     exists e : CacheEntry,
       cache (bitmap_cache b) !! cache_key (calling_at_list d0) (font fs) = Some e /\
       0 <= pixels_up (scroll b) <= txt_height e /\ pixels_left (scroll b) <= 1).
Proof.
  intros Hf. cbv zeta. unfold run.
  pose proof (run_frames_ok ticks _ (refresh_data_ok src _ (board_init_ok cfg fs Hf)))
    as (Hfs & Hh & Hs).
  split; [exact Hh |].
  intros d0 rest Hd. destruct (Hs d0 rest Hd) as [Hinit | (e & He & Hb)];
    [left; exact Hinit | right].
  exists e. split; [| exact Hb].
  assert (Hfonts : forall l b0, fonts (run_frames l b0) = fonts b0).
  { induction l as [| t l IH]; intros b0; [reflexivity |].
    cbn [run_frames]. rewrite IH, render_frame_unfold.
    destruct (draw_time_step (tick_now t)
                (draw_board (if tick_refresh_due t
                             then refresh_data (tick_source t) b0 else b0)).1)
      as [(_ & Hf2 & _) _].
    rewrite Hf2.
    destruct (draw_board_step (if tick_refresh_due t
                               then refresh_data (tick_source t) b0 else b0))
      as (_ & Hf1 & _).
    rewrite Hf1. destruct (tick_refresh_due t); [apply refresh_data_fonts | reflexivity]. }
  rewrite Hfonts in He. rewrite (proj1 (refresh_data_fonts src _)) in He. exact He.
Qed.

Lemma sample_fonts_ok : fonts_ok sample_fonts.
Proof. repeat split; intros text; simpl; lia. Defined.

Lemma run_keeps_animation_within_text_witness :
  fonts_ok sample_fonts /\
  heights_ok (bitmap_cache
                (run (sample_source true true)
                   [sample_tick false; sample_tick true; sample_tick false]
                   (board_init (sample_config "") sample_fonts))).
Proof.
  split; [exact sample_fonts_ok |].
  exact (proj1 (run_keeps_animation_within_text (sample_source true true)
                  [sample_tick false; sample_tick true; sample_tick false]
                  (sample_config "") sample_fonts sample_fonts_ok)).
Defined.

(** The clipped call of a frame with departures: where it is placed. *)
Lemma draw_departures_clipped_call (b : Board) (d0 : Departure) (rest : list Departure)
    (c : DrawCall) :
  departure_data b = Some (d0 :: rest) ->
  c ∈ (draw_departures b).2 -> is_clipped c = true ->
  exists (e : CacheEntry) (x wc : Z) (r : nat),
    cache (bitmap_cache (draw_departures b).1)
      !! cache_key (calling_at_list d0) (font (fonts b)) = Some e /\
    c = BlitClipped x
          (if has_elevated (scroll b) then 12
           else 12 + txt_height e - pixels_up (scroll b))
          r wc (256 - wc).
Proof.
  intros Hdata. unfold draw_departures. rewrite Hdata. cbn [default from_option id].
  set (ff := if firstDepartureBold (config b) then font_bold (fonts b) else font (fonts b)).
  destruct (draw_departure_row_calls d0 0 ff true b)
    as (row0 & tail0 & Hc0 & Hf0 & _ & (e & r4 & r5 & x & wc & He & ->)).
  destruct (draw_departure_row d0 0 ff true b) as [b1 calls1].
  cbn [fst snd] in Hc0, He. subst calls1.
  assert (Hrows : forall (bn : Board) (others : list DrawCall),
            cache_extends (bitmap_cache b1) (bitmap_cache bn) ->
            Forall (fun c => is_clipped c = false) others ->
            c ∈ (row0 ++ [Blit 0 (0 + 12) r4;
                          BlitClipped x
                            (if has_elevated (scroll b) then 0 + 12
                             else 0 + 12 + txt_height e - pixels_up (scroll b))
                            r5 wc (256 - wc)]) ++ others ->
            is_clipped c = true ->
            exists (e : CacheEntry) (x wc : Z) (r : nat),
              cache (bitmap_cache bn)
                !! cache_key (calling_at_list d0) (font (fonts b)) = Some e /\
              c = BlitClipped x
                    (if has_elevated (scroll b) then 12
                     else 12 + txt_height e - pixels_up (scroll b))
                    r wc (256 - wc)).
  { intros bn others [Hkeep _] Hothers Hin Hclip.
    rewrite !elem_of_app in Hin. destruct Hin as [[Hin | Hin] | Hin].
    - rewrite Forall_forall in Hf0. apply Hf0 in Hin as [Hno _]. congruence.
    - apply elem_of_cons in Hin as [-> | Hin]; [discriminate Hclip |].
      apply list_elem_of_singleton in Hin. subst c.
      exists e, x, wc, r5. split; [apply Hkeep; exact He | reflexivity].
    - rewrite Forall_forall in Hothers. apply Hothers in Hin. congruence. }
  destruct rest as [| d1 rest].
  { cbn [fst snd]. intros Hin. apply (Hrows b1 []); auto using cache_extends_refl.
    rewrite app_nil_r. exact Hin. }
  destruct (draw_departure_row_calls d1 24 (font (fonts b1)) false b1)
    as (row1 & tail1 & Hc1 & Hf1 & _ & ->).
  rewrite app_nil_r in Hc1.
  pose proof (draw_departure_row_extends d1 24 (font (fonts b1)) false b1) as He1.
  destruct (draw_departure_row d1 24 (font (fonts b1)) false b1) as [b2 calls2].
  cbn [fst snd] in Hc1, He1. subst calls2.
  assert (Hrow1 : Forall (fun c => is_clipped c = false) row1)
    by (eapply Forall_impl; [exact Hf1 |]; simpl; tauto).
  destruct rest as [| d2 rest].
  { cbn [fst snd]. apply (Hrows b2 row1); assumption. }
  destruct (draw_departure_row_calls d2 36 (font (fonts b2)) false b2)
    as (row2 & tail2 & Hc2 & Hf2 & _ & ->).
  rewrite app_nil_r in Hc2.
  pose proof (draw_departure_row_extends d2 36 (font (fonts b2)) false b2) as He2.
  destruct (draw_departure_row d2 36 (font (fonts b2)) false b2) as [b3 calls3].
  cbn [fst snd] in Hc2, He2. subst calls3.
  cbn [fst snd]. apply (Hrows b3 (row1 ++ row2)).
  - exact (cache_extends_trans _ _ _ He1 He2).
  - apply Forall_app. split; [exact Hrow1 |].
    eapply Forall_impl; [exact Hf2 |]; simpl; tauto.
Qed.

Lemma draw_no_trains_unclipped (b : Board) :
  Forall (fun c => is_clipped c = false) (draw_no_trains b).2.
Proof.
  unfold draw_no_trains. cbv zeta.
  destruct (get_bitmap "Welcome to" _ _) as [[[w1 h1] bmp1] c1].
  destruct (get_bitmap _ _ c1) as [[[w2 h2] bmp2] c2].
  destruct (get_bitmap "No trains scheduled" _ c2) as [[[w3 h3] bmp3] c3].
  repeat constructor.
Qed.

(** On a board that satisfies the invariant, the clipped call of the
    board part of a frame is placed on line 12 or below. *)
Lemma draw_board_clipped_line (b : Board) (c : DrawCall) :
  board_ok b -> c ∈ (draw_board b).2 -> is_clipped c = true ->
  exists (x y wc : Z) (r : nat), c = BlitClipped x y r wc (256 - wc) /\ 12 <= y.
Proof.
  intros (Hf & Hh & Hs) Hin Hclip. unfold draw_board in Hin.
  destruct (departure_data b) as [[| d0 rest] |] eqn:Hd;
    try (pose proof (draw_no_trains_unclipped b) as Hno;
         rewrite Forall_forall in Hno; apply Hno in Hin; congruence).
  destruct (draw_departures_clipped_call b d0 rest c Hd Hin Hclip)
    as (e & x & wc & r & He & ->).
  destruct (draw_departures_effect b d0 rest Hd) as (Hstep & _).
  exists x, (if has_elevated (scroll b) then 12
             else 12 + txt_height e - pixels_up (scroll b)), wc, r.
  split; [reflexivity |].
  destruct (has_elevated (scroll b)); [lia |].
  assert (Hup : pixels_up (scroll b) <= txt_height e).
  { destruct (Hs d0 rest Hd) as [Hinit | (e0 & He0 & Hb0)].
    - rewrite Hinit. simpl.
      destruct Hstep as (_ & _ & _ & _ & _ & Hh1). exact (Hh1 Hf Hh _ e He).
    - assert (e0 = e).
      { destruct Hstep as (_ & _ & _ & _ & [Hkeep _] & _).
        apply Hkeep in He0. congruence. }
      subst e0. apply Hb0. }
  lia.
Qed.

(** X16: with fonts that measure no negative height, in every frame of
    every run of the application the scrolling calling-at text is written
    into rows 12 to 21 of the canvas only: it never reaches the first
    departure's line above it nor the second departure's line below. *)
Theorem scrolling_text_stays_in_its_line (src : DataSource) (ticks : list Tick)
    (cfg : Config) (fs : Fonts) (t : Tick) (store : list Bitmap)
    (c : DrawCall) (p : Z * Z) :
  fonts_ok fs ->
  let b := run src ticks (board_init cfg fs) in
  c ∈ (render_frame (tick_source t) (tick_refresh_due t) (tick_now t) b).2 ->
  is_clipped c = true ->
  p ∈ call_points store c ->
  12 <= p.2 < 22 /\ 0 <= p.1 < 256.
Proof.
  intros Hf. cbv zeta. unfold run.
  pose proof (run_frames_ok ticks _ (refresh_data_ok src _ (board_init_ok cfg fs Hf)))
    as Hok.
  set (b := run_frames ticks (refresh_data src (board_init cfg fs))) in *.
  unfold render_frame.
  set (b0 := if tick_refresh_due t then refresh_data (tick_source t) b else b).
  assert (Hok0 : board_ok b0)
    by (unfold b0; destruct (tick_refresh_due t); [apply refresh_data_ok |]; exact Hok).
  pose proof (draw_board_clipped_line b0 c Hok0) as Hline.
  destruct (draw_board b0) as [b1 calls1]. cbn [fst snd] in Hline.
  destruct (tick_now t) as [[hour minute] second].
  destruct (clock_layout_aux hour minute second b1) as (x1 & x2 & r1 & r2 & Hclock).
  destruct (draw_time (hour, minute, second) b1) as [b2 calls2].
  cbn [fst snd] in *. subst calls2.
  intros Hin Hclip Hp.
  apply elem_of_app in Hin as [Hin | Hin].
  - destruct (Hline Hin Hclip) as (x & y & wc & r & -> & Hy).
    simpl in Hp. destruct (store !! r) as [bmp |]; [| inversion Hp].
    apply elem_of_draw_bitmap_clipped in Hp
      as (px & py & _ & Hpy & _ & -> & _ & _ & Hx & Hrow).
    simpl. lia.
  - apply elem_of_cons in Hin as [-> | Hin]; [discriminate Hclip |].
    apply list_elem_of_singleton in Hin. subst c. discriminate Hclip.
Qed.

Lemma scrolling_text_stays_in_its_line_witness :
  BlitClipped 72 17 4 72 (256 - 72)
    ∈ (render_frame (sample_source true true) false ("10"%string, "05"%string, "07"%string)
         (run (sample_source true true)
            [sample_tick false; sample_tick false; sample_tick false;
             sample_tick false; sample_tick false]
            (board_init (sample_config "") sample_fonts))).2 /\
  (72, 17) ∈ call_points [solid3; solid3; solid3; solid3; solid3]
               (BlitClipped 72 17 4 72 (256 - 72)) /\
  12 <= 17 < 22 /\ 0 <= 72 < 256.
Proof.
  assert (Hin : BlitClipped 72 17 4 72 (256 - 72)
                  ∈ (render_frame (tick_source (sample_tick false))
                       (tick_refresh_due (sample_tick false))
                       (tick_now (sample_tick false))
                       (run (sample_source true true)
                          [sample_tick false; sample_tick false; sample_tick false;
                           sample_tick false; sample_tick false]
                          (board_init (sample_config "") sample_fonts))).2).
  { vm_compute. repeat constructor. }
  assert (Hp : (72, 17) ∈ call_points [solid3; solid3; solid3; solid3; solid3]
                             (BlitClipped 72 17 4 72 (256 - 72))).
  { vm_compute. repeat constructor. }
  split; [exact Hin | split; [exact Hp |]].
  exact (scrolling_text_stays_in_its_line (sample_source true true)
           [sample_tick false; sample_tick false; sample_tick false;
            sample_tick false; sample_tick false]
           (sample_config "") sample_fonts (sample_tick false)
           [solid3; solid3; solid3; solid3; solid3]
           (BlitClipped 72 17 4 72 (256 - 72)) (72, 17)
           sample_fonts_ok Hin eq_refl Hp).
Defined.

(** ** The platform label *)

(** X17: the platform label is "BUS" for exactly the eight spellings of
    "bus" in upper and lower case; every other platform value [p],
    the empty one included, is shown as "Plat " followed by [p]. *)
Theorem platform_text_bus_iff (p : string) :
  (platform_text p = "BUS" <->
   p ∈ ["bus"; "buS"; "bUs"; "bUS"; "Bus"; "BuS"; "BUs"; "BUS"]) /\
  (platform_text p <> "BUS" -> platform_text p = "Plat " +:+ p).
Proof.
  destruct (platform_text_cases p) as [Hbus Hplat].
  destruct (String.eqb_spec (lower p) "bus") as [Hl | Hl].
  - split; [| intros Hne; contradiction Hne; auto].
    split; [intros _; apply lower_bus; exact Hl | intros _; auto].
  - rewrite (Hplat Hl). split; [| reflexivity].
    split; [discriminate |]. intros Hin. apply lower_bus in Hin. contradiction.
Qed.

Lemma platform_text_bus_iff_witness :
  platform_text "bUs" = "BUS" /\ platform_text "" = "Plat ".
Proof.
  split.
  - apply (proj1 (platform_text_bus_iff "bUs")). set_solver.
  - apply (proj2 (platform_text_bus_iff "")). discriminate.
Defined.

(** ** The end of the scroll phase *)

(** X18: on a cache whose entries match their images, a frame drawn in
    the scroll phase with the text moved out by its whole width or more
    ([pixels_left <= 1 - w]) shows nothing of the text: its one clipped
    blit writes no point.  This is the case in the frame in which the
    animator leaves the scroll phase ([w < - pixels_left]). *)
Theorem scrolled_out_text_is_invisible (text : string) (x_offset y_pos max_width : Z)
    (b : Board) :
  cache_wf (bitmap_cache b) ->
  has_elevated (scroll b) = true ->
  let w := (get_bitmap text (font (fonts b)) (bitmap_cache b)).1.1.1 in
  let frame := draw_scrolling_text text x_offset y_pos max_width b in
  pixels_left (scroll b) <= 1 - w ->
  Forall (fun c => call_points (images (bitmap_cache frame.1)) c = []) frame.2 /\
  length frame.2 = 1%nat /\
  (w < - pixels_left (scroll b) -> pause_count (scroll b) < 8 ->
   has_elevated (scroll frame.1) = false /\ pixels_left (scroll frame.1) = 0).
Proof.
  intros Hwf Hel. cbv zeta. unfold draw_scrolling_text.
  destruct (get_bitmap_cached text (font (fonts b)) (bitmap_cache b)) as (e & He & Hres).
  pose proof (get_bitmap_wf text (font (fonts b)) _ Hwf) as Hwf'.
  destruct (get_bitmap text (font (fonts b)) (bitmap_cache b)) as [[[w h] r] c'].
  cbn [fst snd] in *. injection Hres as -> -> ->.
  rewrite Hel. intros Hleft. cbn [fst snd bitmap_cache set_scroll set_cache scroll].
  split; [| split; [reflexivity |]].
  - constructor; [| constructor]. simpl.
    destruct (Hwf' _ e He) as (bmp & Hb & Hw & _). rewrite Hb.
    apply elem_of_nil_inv. intros p Hp.
    apply elem_of_draw_bitmap_clipped in Hp
      as (px & py & Hpx & _ & _ & _ & Hcx & _).
    lia.
  - intros Hout Hpause.
    rewrite advance_scroll_exit by assumption. split; reflexivity.
Qed.

Lemma scrolled_out_text_is_invisible_witness :
  let b := set_scroll (mkScroll (-217) 0 true 0) (run_frames [sample_tick false] (sample_board "")) in
  length (draw_scrolling_text "Slough, Maidenhead, Twyford, Reading" 72 12 184 b).2 = 1%nat /\
  has_elevated (scroll (draw_scrolling_text "Slough, Maidenhead, Twyford, Reading"
                          72 12 184 b).1) = false.
Proof.
  cbv zeta.
  assert (Hwf : cache_wf (bitmap_cache
                            (set_scroll (mkScroll (-217) 0 true 0)
                               (run_frames [sample_tick false] (sample_board ""))))).
  { apply (get_bitmaps_wf
             [("10:32  Reading"%string, block_font "Dot Matrix" "Bold");
              ("On time"%string, block_font "Dot Matrix" "Regular");
              ("Plat 4"%string, block_font "Dot Matrix" "Regular");
              ("Calling at: "%string, block_font "Dot Matrix" "Regular");
              ("Slough, Maidenhead, Twyford, Reading"%string,
               block_font "Dot Matrix" "Regular");
              ("10:05"%string, block_font "Dot Matrix" "Bold");
              (":07"%string, block_font "Dot Matrix" "Bold Tall")] cache_empty).
    apply cache_empty_wf. }
  pose proof (scrolled_out_text_is_invisible "Slough, Maidenhead, Twyford, Reading"
                72 12 184 _ Hwf eq_refl) as H.
  cbv zeta in H. destruct H as (_ & Hlen & Hexit).
  - vm_compute. discriminate.
  - split; [exact Hlen |]. apply Hexit; vm_compute; reflexivity.
Defined.

(** ** Every call draws an image of the store *)

Lemma get_bitmap_valid (text : string) (f : FreeTypeFont) (c : BitmapTextCache) :
  cache_wf c ->
  is_Some (images (get_bitmap text f c).2 !! (get_bitmap text f c).1.2).
Proof.
  intros Hwf. destruct (get_bitmap_cached text f c) as (e & He & Hres).
  destruct (get_bitmap_wf text f c Hwf _ e He) as (bmp & Hb & _).
  rewrite Hres. cbn [snd]. rewrite Hb. eauto.
Qed.

Lemma valid_extends (c c' : BitmapTextCache) (r : nat) :
  cache_extends c c' -> is_Some (images c !! r) -> is_Some (images c' !! r).
Proof. intros [_ Hi] [bmp Hb]. exists bmp. apply Hi. exact Hb. Qed.

Lemma calls_valid_extends (c c' : BitmapTextCache) (calls : list DrawCall) :
  cache_extends c c' -> Forall (call_valid c) calls -> Forall (call_valid c') calls.
Proof.
  intros Hext Hall. eapply Forall_impl; [exact Hall |].
  intros k. apply valid_extends. exact Hext.
Qed.

(** As [next_lookup], on a cache known to be well formed. *)
Ltac wf_lookup :=
  match goal with
  | Hwf : cache_wf ?c |- context [get_bitmap ?t ?f ?c] =>
      let Hwf' := fresh "Hwf" in
      let Hv := fresh "Hv" in
      let He := fresh "Hext" in
      pose proof (get_bitmap_wf t f c Hwf) as Hwf';
      pose proof (get_bitmap_valid t f c Hwf) as Hv;
      pose proof (get_bitmap_extends t f c) as He;
      destruct (get_bitmap t f c) as [[[? ?] ?] ?];
      cbn [fst snd] in Hwf', Hv, He |- *
  end.

Ltac calls_valid :=
  cbn [fst snd bitmap_cache set_cache set_scroll fonts scroll];
  split; [assumption |];
  repeat (apply Forall_cons; split; [unfold call_valid; cbn [call_ref] |]);
  try apply Forall_nil;
  eauto 12 using valid_extends.

Lemma draw_scrolling_text_valid (text : string) (x_offset y_pos max_width : Z)
    (b : Board) :
  cache_wf (bitmap_cache b) ->
  cache_wf (bitmap_cache (draw_scrolling_text text x_offset y_pos max_width b).1) /\
  Forall (call_valid (bitmap_cache (draw_scrolling_text text x_offset y_pos max_width b).1))
         (draw_scrolling_text text x_offset y_pos max_width b).2.
Proof.
  intros Hwf. unfold draw_scrolling_text. wf_lookup.
  destruct (has_elevated (scroll b)); calls_valid.
Qed.

Lemma draw_departure_row_valid (d : Departure) (y_pos : Z) (f : FreeTypeFont)
    (show_calling : bool) (b : Board) :
  cache_wf (bitmap_cache b) ->
  cache_wf (bitmap_cache (draw_departure_row d y_pos f show_calling b).1) /\
  Forall (call_valid (bitmap_cache (draw_departure_row d y_pos f show_calling b).1))
         (draw_departure_row d y_pos f show_calling b).2.
Proof.
  intros Hwf. unfold draw_departure_row. do 2 wf_lookup.
  destruct (platform d) as [p |]; [wf_lookup |];
    (destruct show_calling;
     [ wf_lookup;
       match goal with
       | Hw : cache_wf ?c4
         |- context [draw_scrolling_text ?t ?x ?y ?m (set_cache ?c4 ?b0)] =>
           pose proof (draw_scrolling_text_valid t x y m (set_cache c4 b0) Hw)
             as [Hwfs Hvs];
           pose proof (draw_scrolling_text_extends t x y m (set_cache c4 b0)) as Hexts;
           destruct (draw_scrolling_text t x y m (set_cache c4 b0)) as [b' calls'];
           cbn [fst snd bitmap_cache set_cache] in Hwfs, Hvs, Hexts |- *
       end;
       split; [assumption |];
       rewrite <- !app_assoc; cbn [app];
       repeat (apply Forall_cons; split;
               [unfold call_valid; cbn [call_ref]; eauto 12 using valid_extends |]);
       exact Hvs
     | calls_valid ]).
Qed.

Lemma draw_no_trains_valid (b : Board) :
  cache_wf (bitmap_cache b) ->
  cache_wf (bitmap_cache (draw_no_trains b).1) /\
  Forall (call_valid (bitmap_cache (draw_no_trains b).1)) (draw_no_trains b).2.
Proof.
  intros Hwf. unfold draw_no_trains. cbv zeta. do 3 wf_lookup. calls_valid.
Qed.

Lemma draw_time_valid (now : string * string * string) (b : Board) :
  cache_wf (bitmap_cache b) ->
  cache_wf (bitmap_cache (draw_time now b).1) /\
  Forall (call_valid (bitmap_cache (draw_time now b).1)) (draw_time now b).2.
Proof.
  intros Hwf. unfold draw_time. destruct now as [[hour minute] second]. cbv zeta.
  do 2 wf_lookup. calls_valid.
Qed.

Lemma draw_departures_valid (b : Board) :
  cache_wf (bitmap_cache b) ->
  cache_wf (bitmap_cache (draw_departures b).1) /\
  Forall (call_valid (bitmap_cache (draw_departures b).1)) (draw_departures b).2.
Proof.
  intros Hwf. unfold draw_departures.
  destruct (default [] (departure_data b)) as [| d0 rest];
    [split; [exact Hwf | constructor] |].
  match goal with
  | |- context [draw_departure_row d0 0 ?f true b] =>
      destruct (draw_departure_row_valid d0 0 f true b Hwf) as [Hwf1 Hv1];
      destruct (draw_departure_row d0 0 f true b) as [b1 calls1]
  end.
  cbn [fst snd] in *.
  destruct rest as [| d1 rest]; [split; assumption |].
  destruct (draw_departure_row_valid d1 24 (font (fonts b1)) false b1 Hwf1) as [Hwf2 Hv2].
  pose proof (draw_departure_row_extends d1 24 (font (fonts b1)) false b1) as He2.
  destruct (draw_departure_row d1 24 (font (fonts b1)) false b1) as [b2 calls2].
  cbn [fst snd] in *.
  destruct rest as [| d2 rest].
  { split; [exact Hwf2 |]. apply Forall_app. split; [| exact Hv2].
    exact (calls_valid_extends _ _ _ He2 Hv1). }
  destruct (draw_departure_row_valid d2 36 (font (fonts b2)) false b2 Hwf2) as [Hwf3 Hv3].
  pose proof (draw_departure_row_extends d2 36 (font (fonts b2)) false b2) as He3.
  destruct (draw_departure_row d2 36 (font (fonts b2)) false b2) as [b3 calls3].
  cbn [fst snd] in *.
  split; [exact Hwf3 |]. rewrite !Forall_app. split; [| split; [| exact Hv3]].
  - exact (calls_valid_extends _ _ _ (cache_extends_trans _ _ _ He2 He3) Hv1).
  - exact (calls_valid_extends _ _ _ He3 Hv2).
Qed.

Lemma render_frame_valid (src : DataSource) (refresh_due : bool)
    (now : string * string * string) (b : Board) :
  cache_wf (bitmap_cache b) ->
  cache_wf (bitmap_cache (render_frame src refresh_due now b).1) /\
  Forall (call_valid (bitmap_cache (render_frame src refresh_due now b).1))
         (render_frame src refresh_due now b).2.
Proof.
  intros Hwf. unfold render_frame.
  set (b0 := if refresh_due then refresh_data src b else b).
  assert (Hwf0 : cache_wf (bitmap_cache b0)).
  { unfold b0. destruct refresh_due; [rewrite refresh_data_cache |]; exact Hwf. }
  assert (H1 : cache_wf (bitmap_cache (draw_board b0).1) /\
               Forall (call_valid (bitmap_cache (draw_board b0).1)) (draw_board b0).2).
  { unfold draw_board. destruct (departure_data b0) as [[| d ds] |];
      auto using draw_no_trains_valid, draw_departures_valid. }
  destruct (draw_board b0) as [b1 calls1]. cbn [fst snd] in H1. destruct H1 as [Hwf1 Hv1].
  destruct (draw_time_valid now b1 Hwf1) as [Hwf2 Hv2].
  pose proof (draw_time_extends now b1) as He2.
  destruct (draw_time now b1) as [b2 calls2]. cbn [fst snd] in *.
  split; [exact Hwf2 |]. apply Forall_app. split; [| exact Hv2].
  exact (calls_valid_extends _ _ _ He2 Hv1).
Qed.

(** X19: in every frame of every run of the application each blit refers
    to an image that is in the store when the frame is complete, and every
    cache entry has its image there, of the width and height the entry
    records: no blit ever draws a missing image. *)
Theorem frame_draws_stored_images (src : DataSource) (ticks : list Tick)
    (cfg : Config) (fs : Fonts) (t : Tick) :
  let b := run src ticks (board_init cfg fs) in
  let frame := render_frame (tick_source t) (tick_refresh_due t) (tick_now t) b in
  cache_wf (bitmap_cache frame.1) /\
  Forall (fun c => exists bmp, images (bitmap_cache frame.1) !! call_ref c = Some bmp)
         frame.2.
Proof.
  cbv zeta.
  assert (Hrun : forall l b0, cache_wf (bitmap_cache b0) ->
                              cache_wf (bitmap_cache (run_frames l b0))).
  { induction l as [| t0 l IH]; intros b0 Hwf; [exact Hwf |].
    cbn [run_frames]. apply IH. apply render_frame_valid. exact Hwf. }
  assert (Hwf : cache_wf (bitmap_cache (run src ticks (board_init cfg fs)))).
  { unfold run. apply Hrun. rewrite refresh_data_cache. apply cache_empty_wf. }
  destruct (render_frame_valid (tick_source t) (tick_refresh_due t) (tick_now t) _ Hwf)
    as [Hwf' Hv].
  split; [exact Hwf' |].
  eapply Forall_impl; [exact Hv |]. intros c [bmp Hb]. exists bmp. exact Hb.
Qed.

(** ** A blit on the canvas *)

(** X9: blitting a bitmap onto a canvas only lights pixels: afterwards a
    pixel is yellow exactly when it was yellow before or it is on the
    256 x 64 canvas and the bitmap has a lit pixel there.  No blit turns a
    pixel black again. *)
Theorem blit_only_lights_pixels (x y : Z) (bmp : Bitmap) (cv : Canvas) (sx sy : Z) :
  paint (draw_bitmap x y bmp) cv sx sy = Yellow <->
  cv sx sy = Yellow \/
  (0 <= sx - x < bmp_width bmp /\ 0 <= sy - y < bmp_height bmp /\
   0 < bmp_pixel bmp (sx - x) (sy - y) /\
   0 <= sx < 256 /\ 0 <= sy < 64).
Proof.
  rewrite (proj1 (paint_yellow_iff (draw_bitmap x y bmp) cv sx sy)).
  rewrite elem_of_draw_bitmap. split.
  - intros [(px & py & Hpx & Hpy & Hlit & Heq & Hx & Hy) | Hyel]; [right | left; exact Hyel].
    inversion Heq; subst.
    replace (x + px - x) with px by lia. replace (y + py - y) with py by lia.
    repeat split; (lia || assumption).
  - intros [Hyel | (Hpx & Hpy & Hlit & Hx & Hy)]; [right; exact Hyel | left].
    exists (sx - x), (sy - y).
    replace (x + (sx - x)) with sx by lia. replace (y + (sy - y)) with sy by lia.
    repeat split; (lia || assumption).
Qed.

(** ** A refresh restarts the animation *)

(** X20: every refresh that leaves the board with departures restarts the
    animation, also when the calling-at text has not changed: the frame
    that performs the refresh ends one animator step away from the initial
    state, in the reveal phase with [pixels_left = 1]. *)
Theorem refresh_restarts_animation (src : DataSource)
    (now : string * string * string) (b : Board)
    (d0 : Departure) (rest : list Departure) :
  departure_data (refresh_data src b) = Some (d0 :: rest) ->
  let frame := render_frame src true now b in
  exists e : CacheEntry,
    cache (bitmap_cache frame.1) !! cache_key (calling_at_list d0) (font (fonts b)) = Some e /\
    scroll frame.1 = scroll_advance (txt_width e) (txt_height e) scroll_init /\
    has_elevated (scroll frame.1) = false /\
    pixels_left (scroll frame.1) = 1.
Proof.
  intros Hd. cbv zeta. rewrite render_frame_unfold.
  set (b0 := refresh_data src b) in *.
  assert (Hinit : scroll b0 = scroll_init).
  { revert Hd. unfold b0, refresh_data.
    destruct (operating_hours_gate src (config b)); try discriminate.
    destruct (loadDeparturesForStation src _ _ _) as [[[deps st] dest] |];
      [reflexivity | discriminate]. }
  assert (Hfonts : fonts b0 = fonts b) by apply refresh_data_fonts.
  assert (Hboard : draw_board b0 = draw_departures b0)
    by (unfold draw_board; rewrite Hd; reflexivity).
  rewrite Hboard.
  destruct (draw_departures_effect b0 d0 rest Hd) as (_ & e & He & Hsc).
  destruct (draw_time_step now (draw_departures b0).1) as [Hs2 Hsc2].
  exists e. rewrite Hsc2, Hsc, Hinit, <- Hfonts.
  split; [| split; [reflexivity |]].
  - destruct Hs2 as (_ & _ & _ & _ & [Hkeep _] & _). apply Hkeep. exact He.
  - unfold scroll_advance, scroll_init. simpl.
    destruct (txt_height e); split; reflexivity.
Qed.

Lemma refresh_restarts_animation_witness :
  has_elevated (scroll (render_frame (sample_source true true) true
                          ("10"%string, "05"%string, "07"%string)
                          (sample_board "6-23")).1) = false /\
  pixels_left (scroll (render_frame (sample_source true true) true
                         ("10"%string, "05"%string, "07"%string)
                         (sample_board "6-23")).1) = 1.
Proof.
  destruct (refresh_restarts_animation (sample_source true true)
              ("10"%string, "05"%string, "07"%string) (sample_board "6-23")
              (sample_departure (Some "4")) [] eq_refl) as (e & _ & _ & Hel & Hleft).
  split; [exact Hel | exact Hleft].
Defined.
